(** * SEO analyzer: keyword enrichment, scoring, ranking and summary

    A shallow embedding of [src/seo.py] (class [SEOAnalyzer]) and the
    properties of its scoring pipeline.

    Python values are modelled as the interpreter has them:
    - [int] is an unbounded integer ([Z]);
    - [float] is an IEEE-754 binary64 number, taken from the kernel's
      executable specification [SpecFloat] with [prec = 53], [emax = 1024];
    - [str] is a sequence of Unicode code points;
    - an exception is a value of [exn], carried by [result];
    - logging, the outbound calls and the printed report are events of a
      trace, carried by [io].

    The interpreter is CPython 3.11: [sum] adds floats from left to right
    (3.12 and later compensate the rounding errors), and an [int] of more
    than 4300 decimal digits cannot be converted to a string.

    The language model, the search-data provider and [json.loads] are
    parameters: the first two are fields of the analyzer, the third is a
    variable of the pipeline. *)

From Stdlib Require Import String Ascii.
From Stdlib Require Import ZArith NArith List Bool Lia.
From Stdlib Require Import Permutation Sorted.
From Stdlib Require Import Floats.SpecFloat.
Import ListNotations.
Open Scope Z_scope.

(** ** Strings *)

Definition codepoint := N.
Definition pystr := list codepoint.

(** A Python string literal made of ASCII characters. *)
Definition str (s : string) : pystr :=
  map N_of_ascii (list_ascii_of_string s).

(** ** Exceptions and results *)

Inductive exn :=
| OverflowError
| ZeroDivisionError
| TypeError
| AttributeError
| KeyError
| IndexError
| ValueError
| RecursionError
| JSONDecodeError              (* a subclass of [ValueError] *)
| OtherError (name : pystr).   (* any other subclass of [Exception] *)

Inductive result (A : Type) :=
| Ok (a : A)
| Raise (e : exn).
Arguments Ok {A} a.
Arguments Raise {A} e.

Definition rbind {A B} (r : result A) (k : A -> result B) : result B :=
  match r with
  | Ok a => k a
  | Raise e => Raise e
  end.

Declare Scope result_scope.
Delimit Scope result_scope with result.
Notation "x <- c ;; k" := (rbind c (fun x => k))
  (at level 61, c at next level, right associativity) : result_scope.

(** ** Numbers: Python's [int] and [float] *)

Definition prec : Z := 53.
Definition emax : Z := 1024.

Inductive pynum :=
| PInt (z : Z)
| PFloat (f : spec_float).

Definition is_nan (f : spec_float) : bool :=
  match f with S754_nan => true | _ => false end.

Definition is_infinity (f : spec_float) : bool :=
  match f with S754_infinity _ => true | _ => false end.

(** The double nearest to an integer (ties to even); infinite when the
    integer is out of range. *)
Definition float_of_Z (z : Z) : spec_float :=
  binary_normalize prec emax z 0 false.

(** [float(z)] as the arithmetic operators convert an [int] operand:
    [OverflowError] when the integer is too large. *)
Definition int_to_float (z : Z) : result spec_float :=
  let f := float_of_Z z in
  if is_infinity f then Raise OverflowError else Ok f.

(** The double nearest to the quotient of two integers, [b <> 0]. *)
Definition nearest_quotient (a b : Z) : spec_float :=
  match a with
  | Z0 => S754_zero (b <? 0)
  | _ => SFdiv prec emax
           (S754_finite (a <? 0) (Z.to_pos (Z.abs a)) 0)
           (S754_finite (b <? 0) (Z.to_pos (Z.abs b)) 0)
  end.

(** [a / b] on two [int]s is correctly rounded. *)
Definition int_true_divide (a b : Z) : result spec_float :=
  if b =? 0 then Raise ZeroDivisionError
  else
    let q := nearest_quotient a b in
    if is_infinity q then Raise OverflowError else Ok q.

(** A decimal float literal [num / den], e.g. [3.5] is [float_lit 35 10]. *)
Definition float_lit (num den : Z) : spec_float := nearest_quotient num den.

(** Comparison of an [int] with a [float] is exact. *)
Definition cmp_int_float (z : Z) (f : spec_float) : option comparison :=
  match f with
  | S754_nan => None
  | S754_infinity s => Some (if s then Gt else Lt)
  | S754_zero _ => Some (z ?= 0)
  | S754_finite s m e =>
      let v := if s then Zneg m else Zpos m in
      Some (z * 2 ^ Z.max 0 (- e) ?= v * 2 ^ Z.max 0 e)
  end.

Definition py_compare (x y : pynum) : option comparison :=
  match x, y with
  | PInt a, PInt b => Some (a ?= b)
  | PInt a, PFloat g => cmp_int_float a g
  | PFloat f, PInt b => option_map CompOpp (cmp_int_float b f)
  | PFloat f, PFloat g => SFcompare f g
  end.

Definition py_lt (x y : pynum) : bool :=
  match py_compare x y with Some Lt => true | _ => false end.
Definition py_gt (x y : pynum) : bool :=
  match py_compare x y with Some Gt => true | _ => false end.
Definition py_le (x y : pynum) : bool :=
  match py_compare x y with Some (Lt | Eq) => true | _ => false end.
Definition py_ge (x y : pynum) : bool :=
  match py_compare x y with Some (Gt | Eq) => true | _ => false end.
Definition py_eq (x y : pynum) : bool :=
  match py_compare x y with Some Eq => true | _ => false end.

(** Truth value of a number: zero is false, everything else (NaN too) is
    true. *)
Definition num_truthy (x : pynum) : bool :=
  match x with
  | PInt z => negb (z =? 0)
  | PFloat (S754_zero _) => false
  | PFloat _ => true
  end.

Definition to_float (x : pynum) : result spec_float :=
  match x with
  | PInt z => int_to_float z
  | PFloat f => Ok f
  end.

Open Scope result_scope.

Definition py_add (x y : pynum) : result pynum :=
  match x, y with
  | PInt a, PInt b => Ok (PInt (a + b))
  | _, _ =>
      f <- to_float x ;;
      g <- to_float y ;;
      Ok (PFloat (SFadd prec emax f g))
  end.

Definition py_sub (x y : pynum) : result pynum :=
  match x, y with
  | PInt a, PInt b => Ok (PInt (a - b))
  | _, _ =>
      f <- to_float x ;;
      g <- to_float y ;;
      Ok (PFloat (SFsub prec emax f g))
  end.

Definition float_is_zero (f : spec_float) : bool :=
  match f with S754_zero _ => true | _ => false end.

Definition py_truediv (x y : pynum) : result pynum :=
  match x, y with
  | PInt a, PInt b =>
      q <- int_true_divide a b ;;
      Ok (PFloat q)
  | _, _ =>
      f <- to_float x ;;
      g <- to_float y ;;
      if float_is_zero g then Raise ZeroDivisionError
      else Ok (PFloat (SFdiv prec emax f g))
  end.

(** [min(a, b)]: the first argument unless the second is smaller. *)
Definition py_min (a b : pynum) : pynum :=
  if py_lt b a then b else a.

(** The integer nearest to [num / den], ties to even ([num >= 0],
    [den > 0]). *)
Definition round_half_even (num den : Z) : Z :=
  let q := num / den in
  let r := num mod den in
  match 2 * r ?= den with
  | Lt => q
  | Gt => q + 1
  | Eq => if Z.even q then q else q + 1
  end.

(** [round(x, ndigits)] on a [float]: the value is rounded to [ndigits]
    decimals exactly (ties to even) and the decimal result is converted
    back to the nearest double. *)
Definition float_round (f : spec_float) (ndigits : Z) : spec_float :=
  match f with
  | S754_finite s m e =>
      if 0 <=? e then f
      else
        let k := round_half_even (Zpos m * 10 ^ ndigits) (2 ^ (- e)) in
        if k =? 0 then S754_zero s
        else nearest_quotient (if s then - k else k) (10 ^ ndigits)
  | _ => f
  end.

(** [round(x, ndigits)] with [ndigits >= 0]: an [int] is returned as it
    is, a [float] is rounded. *)
Definition py_round (x : pynum) (ndigits : Z) : pynum :=
  match x with
  | PInt z => PInt z
  | PFloat f => PFloat (float_round f ndigits)
  end.

(** [sum(xs)]: the items are added to the integer [0] from left to
    right. *)
Definition py_sum (xs : list pynum) : result pynum :=
  fold_left (fun acc x => a <- acc ;; py_add a x) xs (Ok (PInt 0)).

(** ** Numbers in f-strings *)

(** The smallest integer the interpreter refuses to write in decimal:
    [10 ** 4300], the default of [sys.set_int_max_str_digits]. *)
Definition int_max_str : Z := Eval vm_compute in 10 ^ 4300.

(** [f"{x}"] and [f"{x:,}"]: an [int] of more than 4300 digits raises
    [ValueError]; every [float] can be written. *)
Definition format_decimal (x : pynum) : result unit :=
  match x with
  | PInt z => if int_max_str <=? Z.abs z then Raise ValueError else Ok tt
  | PFloat _ => Ok tt
  end.

(** [f"{x:.2f}"]: an [int] is converted to a [float] first. *)
Definition format_fixed (x : pynum) : result unit :=
  match x with
  | PInt z => _ <- int_to_float z ;; Ok tt
  | PFloat _ => Ok tt
  end.

(** ** Data model *)

(** One per-keyword object of the provider's result list, with the field
    types the provider documents: strings and numbers.  A field is [None]
    when the key is absent; for the three numbers [None] also stands for a
    JSON [null], which [.get(k) or 0] treats alike.  For [keyword] and
    [competition] the inner option is the value stored under the key
    ([None] for [null]). *)
Module KeywordMetric.
Record t := mk {
  keyword : option (option pystr);
  search_volume : option pynum;
  competition : option (option pystr);
  competition_index : option pynum;
  cpc : option pynum
}.
End KeywordMetric.

(** The dictionary built by [_format_keyword_analytics]. *)
Module EnrichedKeyword.
Record t := mk {
  keyword : option pystr;
  search_volume : pynum;
  competition : option pystr;
  competition_index : pynum;
  cpc : pynum;
  difficulty_score : Z;
  opportunity_score : pynum;
  seo_insights : list pystr
}.
End EnrichedKeyword.

(** [d.get(k) or 0] *)
Definition get_or_0 (v : option pynum) : pynum :=
  match v with
  | Some n => if num_truthy n then n else PInt 0
  | None => PInt 0
  end.

(** [d.get(k, default)] *)
Definition get_default {A} (v : option A) (default : A) : A :=
  match v with
  | Some a => a
  | None => default
  end.

(** ** Scorer *)

Definition _calculate_difficulty_score (keyword_data : KeywordMetric.t) : Z :=
  let competition_index := get_or_0 (KeywordMetric.competition_index keyword_data) in
  let search_volume := get_or_0 (KeywordMetric.search_volume keyword_data) in
  (* Base difficulty from competition *)
  let base_difficulty :=
    if py_ge competition_index (PInt 80) then 85
    else if py_ge competition_index (PInt 60) then 65
    else if py_ge competition_index (PInt 40) then 45
    else 25 in
  (* Adjust for search volume *)
  let base_difficulty :=
    if py_gt search_volume (PInt 10000) then base_difficulty + 10
    else if py_gt search_volume (PInt 1000) then base_difficulty + 5
    else base_difficulty in
  Z.min 100 base_difficulty.

Definition _calculate_opportunity_score (keyword_data : KeywordMetric.t)
  : result pynum :=
  let search_volume := get_or_0 (KeywordMetric.search_volume keyword_data) in
  let competition_index := get_or_0 (KeywordMetric.competition_index keyword_data) in
  (* Higher volume = more opportunity (max 50 points) *)
  q <- py_truediv search_volume (PInt 200) ;;
  let volume_score := py_min (PInt 50) q in
  (* Lower competition = more opportunity (max 50 points) *)
  h <- py_truediv competition_index (PInt 2) ;;
  competition_score <- py_sub (PInt 50) h ;;
  total <- py_add volume_score competition_score ;;
  Ok (py_round total 1).

Definition _generate_seo_insights (keyword_data : KeywordMetric.t) : list pystr :=
  let insights := [] in
  let search_volume := get_or_0 (KeywordMetric.search_volume keyword_data) in
  let competition_index := get_or_0 (KeywordMetric.competition_index keyword_data) in
  let cpc := get_or_0 (KeywordMetric.cpc keyword_data) in
  (* Traffic potential insights *)
  let insights :=
    if py_gt search_volume (PInt 5000) then
      insights ++ [str "High search volume - excellent traffic potential"]
    else if py_gt search_volume (PInt 1000) then
      insights ++ [str "Good search volume - solid traffic opportunity"]
    else
      insights ++ [str "Low search volume - niche targeting opportunity"] in
  (* Competition insights *)
  let insights :=
    if py_lt competition_index (PInt 50) then
      insights ++ [str "Low competition - favorable ranking conditions"]
    else if py_lt competition_index (PInt 80) then
      insights ++ [str "Medium competition - moderate SEO effort required"]
    else
      insights ++ [str "High competition - intensive SEO strategy needed"] in
  (* Commercial value insights *)
  let insights :=
    if py_gt cpc (PInt 5) then
      insights ++ [str "High commercial value - strong monetization potential"]
    else if py_gt cpc (PInt 1) then
      insights ++ [str "Medium commercial value - decent revenue opportunity"]
    else
      insights ++ [str "Low commercial value - primarily informational intent"] in
  insights.

Definition _format_keyword_analytics (keyword_data : KeywordMetric.t)
  : result EnrichedKeyword.t :=
  let difficulty := _calculate_difficulty_score keyword_data in
  opportunity <- _calculate_opportunity_score keyword_data ;;
  let insights := _generate_seo_insights keyword_data in
  Ok {| EnrichedKeyword.keyword :=
          get_default (KeywordMetric.keyword keyword_data) (Some (str "Unknown"));
        EnrichedKeyword.search_volume :=
          get_or_0 (KeywordMetric.search_volume keyword_data);
        EnrichedKeyword.competition :=
          get_default (KeywordMetric.competition keyword_data) (Some (str "UNKNOWN"));
        EnrichedKeyword.competition_index :=
          get_or_0 (KeywordMetric.competition_index keyword_data);
        EnrichedKeyword.cpc := get_or_0 (KeywordMetric.cpc keyword_data);
        EnrichedKeyword.difficulty_score := difficulty;
        EnrichedKeyword.opportunity_score := opportunity;
        EnrichedKeyword.seo_insights := insights |}.

(** ** [list.sort(key=..., reverse=...)]

    The sort compares keys with [<] only and is stable.  It is modelled by
    the binary insertion sort that CPython runs on short lists: each item
    goes behind the items that are not greater.  With [reverse=True] the
    list is reversed, sorted and reversed again.  On keys that [<] orders
    consistently (no NaN) every stable sort returns this list. *)
Section ListSort.
Context {A : Type}.
Variable lt : A -> A -> bool.

Fixpoint insert (x : A) (l : list A) : list A :=
  match l with
  | [] => [x]
  | y :: l' => if lt x y then x :: l else y :: insert x l'
  end.

Definition stable_sort (l : list A) : list A :=
  fold_left (fun sorted x => insert x sorted) l [].
End ListSort.

Definition list_sort {A} (key : A -> pynum) (reverse : bool) (l : list A)
  : list A :=
  let lt a b := py_lt (key a) (key b) in
  if reverse then rev (stable_sort lt (rev l)) else stable_sort lt l.

(** ** Notions for the sort *)

Section SortNotions.
Context {A K : Type}.
Variable key : A -> K.
Variable ltk : K -> K -> bool.

(** Two keys tie when neither is smaller. *)
Definition tie (v w : K) : bool := negb (ltk v w) && negb (ltk w v).

(** The sort with [reverse=True]. *)
Definition sort_reverse (l : list A) : list A :=
  rev (stable_sort (fun a b => ltk (key a) (key b)) (rev l)).

(** Insertion from the right end of the list; it is [stable_sort] on the
    reversed list. *)
Definition isort (l : list A) : list A :=
  fold_right (insert (fun a b => ltk (key a) (key b))) [] l.

(** Ascending: no item is smaller than an item before it. *)
Definition ascending : list A -> Prop :=
  StronglySorted (fun a b => ltk (key b) (key a) = false).

(** Descending: no item is smaller than an item behind it. *)
Definition descending : list A -> Prop :=
  StronglySorted (fun a b => ltk (key a) (key b) = false).

(** Every key of the list lies in the part [ordered] of the keys. *)
Definition all_ordered (ordered : K -> Prop) (l : list A) : Prop :=
  Forall (fun a => ordered (key a)) l.
End SortNotions.

(** ** Strings: [strip], [startswith], [endswith], slices *)

Definition pystr_eqb (a b : pystr) : bool :=
  if list_eq_dec N.eq_dec a b then true else false.

(** The code points [str.strip] removes (those with [str.isspace]). *)
Definition is_whitespace (c : codepoint) : bool :=
  (((9 <=? c) && (c <=? 13)) || ((28 <=? c) && (c <=? 32))
   || (c =? 133) || (c =? 160) || (c =? 5760)
   || ((8192 <=? c) && (c <=? 8202)) || (c =? 8232) || (c =? 8233)
   || (c =? 8239) || (c =? 8287) || (c =? 12288))%N.

Fixpoint lstrip (s : pystr) : pystr :=
  match s with
  | c :: s' => if is_whitespace c then lstrip s' else s
  | [] => []
  end.

Definition rstrip (s : pystr) : pystr := rev (lstrip (rev s)).

Definition strip (s : pystr) : pystr := rstrip (lstrip s).

Fixpoint startswith (s prefix : pystr) : bool :=
  match prefix, s with
  | [], _ => true
  | p :: prefix', c :: s' => (p =? c)%N && startswith s' prefix'
  | _ :: _, [] => false
  end.

Definition endswith (s suffix : pystr) : bool :=
  startswith (rev s) (rev suffix).

(** [s[n:]] *)
Definition slice_from (s : pystr) (n : nat) : pystr := skipn n s.

(** [s[:-n]] *)
Definition slice_until_last (s : pystr) (n : nat) : pystr :=
  firstn (length s - n) s.

(** ** Values decoded from JSON *)

#[local] Set Warnings "-register-all".

Inductive pyval :=
| VNone
| VBool (b : bool)
| VNum (n : pynum)
| VStr (s : pystr)
| VList (l : list pyval)
| VDict (d : list (pystr * pyval)).

Definition truthy (v : pyval) : bool :=
  match v with
  | VNone => false
  | VBool b => b
  | VNum n => num_truthy n
  | VStr s => negb (Nat.eqb (length s) 0)
  | VList l => negb (Nat.eqb (length l) 0)
  | VDict d => negb (Nat.eqb (length d) 0)
  end.

Fixpoint dict_lookup (d : list (pystr * pyval)) (k : pystr) : option pyval :=
  match d with
  | [] => None
  | (k', v) :: d' => if pystr_eqb k' k then Some v else dict_lookup d' k
  end.

(** [v.get(k, default)]: only a dictionary has the method. *)
Definition py_get (v : pyval) (k : pystr) (default : pyval) : result pyval :=
  match v with
  | VDict d => Ok (get_default (dict_lookup d k) default)
  | _ => Raise AttributeError
  end.

(** [len(v)] *)
Definition py_len (v : pyval) : result nat :=
  match v with
  | VStr s => Ok (length s)
  | VList l => Ok (length l)
  | VDict d => Ok (length d)
  | _ => Raise TypeError
  end.

(** ** The provider boundary *)

(** The decoded body of a search-volume response,
    [{status_code, status_message, tasks: [{result: [...]}]}]; [result] is
    [None] for a JSON [null]. *)
Module ProviderResponse.
Record task := mk_task {
  result : option (list KeywordMetric.t)
}.
Record t := mk {
  status_code : Z;
  status_message : pystr;
  tasks : list task
}.
End ProviderResponse.

(** One entry of [post_data]. *)
Record PostTask := {
  location_code : Z;
  keywords : pyval;
  date_from : pystr;
  search_partners : bool
}.

(** What [requests] hands back: [json()] decodes the body or raises. *)
Record Response := {
  json : result ProviderResponse.t
}.

(** [RestClient] of [src/client.py], seen through [post]: the request
    either raises (the call cannot be completed) or returns a response. *)
Record RestClient := {
  post : pystr -> list (Z * PostTask) -> result Response
}.

(** The chat-completion endpoint: for a website text, the content of the
    first choice of the completion, or the exception of the call. *)
Record OpenAI := {
  chat_completions_create : pystr -> result pystr
}.

Record SEOAnalyzer := {
  website_url : option pystr;
  openai_client : OpenAI;
  dataforseo_client : option RestClient
}.

(** ** Results of the pipeline *)

Record SummaryMetrics := {
  total_monthly_searches : pynum;
  average_cpc : pynum;
  keywords_analyzed : nat;
  high_opportunity_keywords : nat
}.

(** The three dictionaries [generate_comprehensive_analysis] can return,
    with their keys as arguments. *)
Inductive AnalysisResult :=
| MinimalResult (ai_analysis : pyval)
                (enhanced_keywords recommendations : list EnrichedKeyword.t)
| BasicResult (ai_analysis : pyval) (keywords : pyval)
              (enhanced_analysis : bool)
| EnhancedResult (website_analysis : pyval)
                 (enriched_keywords top_recommendations : list EnrichedKeyword.t)
                 (summary_metrics : SummaryMetrics)
                 (enhanced_analysis : bool).

(** ** Effects: the log, the outbound calls and the printed report *)

Inductive log_level := INFO | WARNING | ERROR.

Inductive log_message :=
| MsgClientNotAvailable
| MsgFetching (n : nat)
| MsgRetrieved
| MsgApiError (code : Z) (message : pystr)
| MsgFetchFailed (e : exn)
| MsgNoKeywords
| MsgBasicAnalysis
| MsgAnalysisFailed (e : exn)
| MsgAICompleted
| MsgAIFailed (e : exn)
| MsgParseFailed
| MsgVolumeUnavailable.

Inductive event :=
| Log (level : log_level) (message : log_message)
| OpenAIRequest (website_content : pystr)
| FetchCall (keywords : pyval)        (* entry into [fetch_search_volume_data] *)
| ProviderRequest (path : pystr) (post_data : list (Z * PostTask))
| Report (ai_analysis : pyval) (enriched_keywords : list EnrichedKeyword.t).

(** A computation yields the events it caused, in order, and returns or
    raises. *)
Definition io (A : Type) : Type := list event * result A.

Definition ret {A} (a : A) : io A := ([], Ok a).
Definition raise {A} (e : exn) : io A := ([], Raise e).
Definition emit (ev : event) : io unit := ([ev], Ok tt).
Definition lift {A} (r : result A) : io A := ([], r).

Definition bind {A B} (m : io A) (k : A -> io B) : io B :=
  match m with
  | (tr, Ok a) => let (tr', r) := k a in (tr ++ tr', r)
  | (tr, Raise e) => (tr, Raise e)
  end.

(** [try: m  except Exception as e: handler e], restricted to the
    exceptions [catches] selects. *)
Definition try_except {A} (m : io A) (catches : exn -> bool)
  (handler : exn -> io A) : io A :=
  match m with
  | (tr, Raise e) =>
      if catches e then let (tr', r) := handler e in (tr ++ tr', r)
      else (tr, Raise e)
  | _ => m
  end.

Definition any_exception (e : exn) : bool := true.

Definition is_JSONDecodeError (e : exn) : bool :=
  match e with JSONDecodeError => true | _ => false end.

Declare Scope io_scope.
Delimit Scope io_scope with io.
Notation "x <- c ;; k" := (bind c (fun x => k))
  (at level 61, c at next level, right associativity) : io_scope.
Notation "c ;; k" := (bind c (fun _ => k))
  (at level 61, right associativity) : io_scope.

Definition log (level : log_level) (message : log_message) : io unit :=
  emit (Log level message).

(** ** Ranking and summary (the tail of [_create_enhanced_analysis]) *)

(** The loop that formats every provider record, in response order. *)
Fixpoint enrich_keywords (results : list KeywordMetric.t)
  : result (list EnrichedKeyword.t) :=
  match results with
  | [] => Ok []
  | keyword_result :: rest =>
      (enriched_keyword <- _format_keyword_analytics keyword_result ;;
       enriched <- enrich_keywords rest ;;
       Ok (enriched_keyword :: enriched))%result
  end.

(** [enriched_keywords.sort(key=lambda x: x["opportunity_score"], reverse=True)] *)
Definition sort_by_opportunity (enriched_keywords : list EnrichedKeyword.t)
  : list EnrichedKeyword.t :=
  list_sort EnrichedKeyword.opportunity_score true enriched_keywords.

(** The summary metrics of the returned dictionary.  [sum] adds from left
    to right (CPython 3.12 and later compensate the rounding errors of a
    float sum; the difference is at most in the last bits of [avg_cpc]). *)
Definition summary_metrics (enriched_keywords : list EnrichedKeyword.t)
  : result SummaryMetrics :=
  (total_searches <- py_sum (map EnrichedKeyword.search_volume enriched_keywords) ;;
   avg_cpc <-
     match enriched_keywords with
     | _ :: _ =>
         total_cpc <- py_sum (map EnrichedKeyword.cpc enriched_keywords) ;;
         py_truediv total_cpc (PInt (Z.of_nat (length enriched_keywords)))
     | [] => Ok (PInt 0)
     end ;;
   Ok {| total_monthly_searches := total_searches;
         average_cpc := py_round avg_cpc 2;
         keywords_analyzed := length enriched_keywords;
         high_opportunity_keywords :=
           length (filter (fun k => py_gt (EnrichedKeyword.opportunity_score k) (PInt 70))
                          enriched_keywords) |})%result.

(** ** The pipeline *)

Definition fallback_analysis : pyval :=
  VDict [ (str "Name", VStr (str "Unknown"));
          (str "Description", VStr (str "Analysis parsing failed"));
          (str "Niche", VStr (str "Unknown"));
          (str "Keywords", VList []) ].

Definition search_volume_path : pystr :=
  str "/v3/keywords_data/google_ads/search_volume/live".

(** [post_data] of [fetch_search_volume_data]: one task under the key 0. *)
Definition search_volume_post_data (keywords : pyval) (location_code : Z)
  (date_from : pystr) : list (Z * PostTask) :=
  [ (0, {| location_code := location_code;
           keywords := keywords;
           date_from := date_from;
           search_partners := true |}) ].

(** The cleaning steps of [_parse_ai_response]. *)
Definition clean_response (ai_response : pystr) : pystr :=
  let clean_response := strip ai_response in
  let clean_response :=
    if startswith clean_response (str "```json")
    then slice_from clean_response 7 else clean_response in
  let clean_response :=
    if endswith clean_response (str "```")
    then slice_until_last clean_response 3 else clean_response in
  strip clean_response.

Section Pipeline.
Open Scope io_scope.

(** [json.loads]: the decoded value, or the exception of the decoder:
    [JSONDecodeError] for a text that is not JSON, but also
    [RecursionError] for a text nested too deeply and [ValueError] for an
    integer of more than 4300 digits. *)
Variable json_loads : pystr -> result pyval.

Variable self : SEOAnalyzer.

Definition fetch_search_volume_data (keywords : pyval)
  (location_code : Z) (date_from : pystr) : io (option ProviderResponse.t) :=
  emit (FetchCall keywords) ;;
  match dataforseo_client self with
  | None =>
      log WARNING MsgClientNotAvailable ;;
      ret None
  | Some client =>
      let post_data := search_volume_post_data keywords location_code date_from in
      try_except
        (n <- lift (py_len keywords) ;;
         log INFO (MsgFetching n) ;;
         emit (ProviderRequest search_volume_path post_data) ;;
         response <- lift (post client search_volume_path post_data) ;;
         response_json <- lift (json response) ;;
         if ProviderResponse.status_code response_json =? 20000 then
           log INFO MsgRetrieved ;;
           ret (Some response_json)
         else
           log ERROR (MsgApiError (ProviderResponse.status_code response_json)
                                  (ProviderResponse.status_message response_json)) ;;
           ret None)
        any_exception
        (fun e =>
           log ERROR (MsgFetchFailed e) ;;
           ret None)
  end.

(** [search_volume_data["tasks"][0]["result"]] *)
Definition first_task_result (search_volume_data : ProviderResponse.t)
  : result (option (list KeywordMetric.t)) :=
  match ProviderResponse.tasks search_volume_data with
  | task :: _ => Ok (ProviderResponse.result task)
  | [] => Raise IndexError
  end.

(** The block of the report for one record, as far as it can fail:
    [keyword['keyword'].upper()] needs a string, and the numbers are
    formatted in the order of the lines. *)
Definition report_keyword (keyword : EnrichedKeyword.t) : result unit :=
  (match EnrichedKeyword.keyword keyword with
   | None => Raise AttributeError
   | Some _ =>
       _ <- format_decimal (EnrichedKeyword.search_volume keyword) ;;
       _ <- format_fixed (EnrichedKeyword.cpc keyword) ;;
       _ <- format_decimal (EnrichedKeyword.competition_index keyword) ;;
       format_decimal (EnrichedKeyword.opportunity_score keyword)
   end)%result.

(** [for idx, keyword in enumerate(enriched_keywords, 1): ...] *)
Fixpoint report_keywords (enriched_keywords : list EnrichedKeyword.t)
  : result unit :=
  match enriched_keywords with
  | [] => Ok tt
  | keyword :: rest =>
      (_ <- report_keyword keyword ;; report_keywords rest)%result
  end.

(** The report is printed.  The event stands for the text; the steps
    that can fail are kept in their order: the three [ai_analysis.get],
    the sum of the search volumes and its format, and the block of every
    record.  The top-3 lines format values that the blocks have formatted
    before. *)
Definition _display_professional_report (ai_analysis : pyval)
  (enriched_keywords : list EnrichedKeyword.t) : io unit :=
  emit (Report ai_analysis enriched_keywords) ;;
  (* Website overview *)
  lift (py_get ai_analysis (str "Name") (VStr (str "N/A"))) ;;
  lift (py_get ai_analysis (str "Niche") (VStr (str "N/A"))) ;;
  lift (py_get ai_analysis (str "Description") (VStr (str "N/A"))) ;;
  (* Keywords analysis *)
  total_volume <- lift (py_sum (map EnrichedKeyword.search_volume enriched_keywords)) ;;
  lift (format_decimal total_volume) ;;
  lift (report_keywords enriched_keywords).

Definition _create_enhanced_analysis (ai_analysis : pyval) (keywords : pyval)
  : io AnalysisResult :=
  search_volume_data <- fetch_search_volume_data keywords 2840 (str "2021-08-01") ;;
  (* not search_volume_data or not search_volume_data["tasks"][0]["result"] *)
  available <-
    match search_volume_data with
    | None => ret None
    | Some data =>
        results <- lift (first_task_result data) ;;
        match results with
        | Some (r :: rs) => ret (Some (r :: rs))
        | Some [] | None => ret None
        end
    end ;;
  match available with
  | None =>
      log WARNING MsgVolumeUnavailable ;;
      ret (BasicResult ai_analysis keywords false)
  | Some results =>
      (* Process and enrich keywords *)
      enriched_keywords <- lift (enrich_keywords results) ;;
      (* Sort by opportunity score *)
      let enriched_keywords := sort_by_opportunity enriched_keywords in
      (* Generate professional report *)
      _display_professional_report ai_analysis enriched_keywords ;;
      (* Calculate summary metrics *)
      metrics <- lift (summary_metrics enriched_keywords) ;;
      ret (EnhancedResult ai_analysis enriched_keywords
                          (firstn 5 enriched_keywords) metrics true)
  end.

Definition _parse_ai_response (ai_response : pystr) : io pyval :=
  try_except
    ((* Clean the response *)
     let clean_response := clean_response ai_response in
     lift (json_loads clean_response))
    is_JSONDecodeError
    (fun e =>
       log ERROR MsgParseFailed ;;
       (* Return a basic structure if parsing fails *)
       ret fallback_analysis).

Definition _generate_ai_insights (website_content : pystr) : io pyval :=
  try_except
    (emit (OpenAIRequest website_content) ;;
     ai_response <- lift (chat_completions_create (openai_client self) website_content) ;;
     log INFO MsgAICompleted ;;
     _parse_ai_response ai_response)
    any_exception
    (fun e =>
       log ERROR (MsgAIFailed e) ;;
       raise e).

(** [ai_analysis.get("Keywords", []) or ai_analysis.get("keywords", [])] *)
Definition analysis_keywords (ai_analysis : pyval) : result pyval :=
  (upper <- py_get ai_analysis (str "Keywords") (VList []) ;;
   if truthy upper then Ok upper
   else py_get ai_analysis (str "keywords") (VList []))%result.

Definition generate_comprehensive_analysis (website_content : pystr)
  : io AnalysisResult :=
  try_except
    ((* Generate AI analysis *)
     ai_analysis <- _generate_ai_insights website_content ;;
     (* Extract keywords and enrich with search data *)
     keywords <- lift (analysis_keywords ai_analysis) ;;
     if negb (truthy keywords) then
       log WARNING MsgNoKeywords ;;
       ret (MinimalResult ai_analysis [] [])
     else
       (* Enrich with search volume data if available *)
       match dataforseo_client self with
       | Some _ => _create_enhanced_analysis ai_analysis keywords
       | None =>
           log INFO MsgBasicAnalysis ;;
           ret (BasicResult ai_analysis keywords false)
       end)
    any_exception
    (fun e =>
       log ERROR (MsgAnalysisFailed e) ;;
       raise e).
End Pipeline.

(** * Notions used in the statements *)

(** ** Tiers of the difficulty score *)

(** The base tier and the volume adjustment, by their intervals. *)
Definition base_tier (competition_index : pynum) : Z :=
  if py_ge competition_index (PInt 80) then 85
  else if py_ge competition_index (PInt 60) && py_lt competition_index (PInt 80) then 65
  else if py_ge competition_index (PInt 40) && py_lt competition_index (PInt 60) then 45
  else 25.

Definition volume_adjustment (search_volume : pynum) : Z :=
  if py_gt search_volume (PInt 10000) then 10
  else if py_gt search_volume (PInt 1000) && py_le search_volume (PInt 10000) then 5
  else 0.

(** The same tiers on integers, with the order of [Z]. *)
Definition base_tier_Z (ci : Z) : Z :=
  if 80 <=? ci then 85
  else if (60 <=? ci) && (ci <? 80) then 65
  else if (40 <=? ci) && (ci <? 60) then 45
  else 25.

Definition volume_adjustment_Z (sv : Z) : Z :=
  if 10000 <? sv then 10
  else if (1000 <? sv) && (sv <=? 10000) then 5
  else 0.

(** ** The opportunity formula *)

(** [round(min(50, search_volume / 200) + (50 - competition_index / 2), 1)] *)
Definition opportunity_formula (search_volume competition_index : pynum)
  : result pynum :=
  (volume <- py_truediv search_volume (PInt 200) ;;
   half <- py_truediv competition_index (PInt 2) ;;
   competition <- py_sub (PInt 50) half ;;
   total <- py_add (py_min (PInt 50) volume) competition ;;
   Ok (py_round total 1))%result.

(** The result is a number below zero. *)
Definition is_negative (r : result pynum) : bool :=
  match r with
  | Ok x => py_lt x (PInt 0)
  | Raise _ => false
  end.

(** A record with no search volume and the given integer competition
    index. *)
Definition competition_only (ci : Z) : KeywordMetric.t :=
  KeywordMetric.mk None None None (Some (PInt ci)) None.

(** Integers from [lo], [n] of them. *)
Definition Z_range (lo n : Z) : list Z :=
  map (fun i => lo + Z.of_nat i) (seq 0 (Z.to_nat n)).

(** Equality of floats, bit for bit. *)
Definition float_eqb (f g : spec_float) : bool :=
  match f, g with
  | S754_zero s, S754_zero t => Bool.eqb s t
  | S754_infinity s, S754_infinity t => Bool.eqb s t
  | S754_nan, S754_nan => true
  | S754_finite s m e, S754_finite t n d =>
      Bool.eqb s t && (m =? n)%positive && (e =? d)
  | _, _ => false
  end.

(** The result is the float [f]. *)
Definition returns_float (r : result pynum) (f : spec_float) : bool :=
  match r with
  | Ok (PFloat g) => float_eqb g f
  | _ => false
  end.

(** A record with integer search volume and competition index and
    nothing else. *)
Definition volume_and_competition (sv ci : Z) : KeywordMetric.t :=
  KeywordMetric.mk None (Some (PInt sv)) None (Some (PInt ci)) None.

(** A record with an integer search volume and nothing else. *)
Definition volume_only (sv : Z) : KeywordMetric.t :=
  KeywordMetric.mk None (Some (PInt sv)) None None None.

(** The result is the double of a decimal [t / 10] that lies within 0.05
    of [n / 200]. *)
Definition nearest_tenth_of_200th (n : Z) (r : result pynum) : bool :=
  ((n mod 20 <=? 10) && returns_float r (float_lit (n / 20) 10))
  || ((10 <=? n mod 20) && returns_float r (float_lit (n / 20 + 1) 10)).

(** ** The three insights *)

Definition traffic_insight (search_volume : pynum) : pystr :=
  if py_gt search_volume (PInt 5000)
  then str "High search volume - excellent traffic potential"
  else if py_gt search_volume (PInt 1000)
  then str "Good search volume - solid traffic opportunity"
  else str "Low search volume - niche targeting opportunity".

Definition competition_insight (competition_index : pynum) : pystr :=
  if py_lt competition_index (PInt 50)
  then str "Low competition - favorable ranking conditions"
  else if py_lt competition_index (PInt 80)
  then str "Medium competition - moderate SEO effort required"
  else str "High competition - intensive SEO strategy needed".

Definition commercial_insight (cpc : pynum) : pystr :=
  if py_gt cpc (PInt 5)
  then str "High commercial value - strong monetization potential"
  else if py_gt cpc (PInt 1)
  then str "Medium commercial value - decent revenue opportunity"
  else str "Low commercial value - primarily informational intent".

(** The tiers on integers, with the order of [Z]; the cost per click
    also in hundredths. *)
Definition traffic_insight_Z (sv : Z) : pystr :=
  if 5000 <? sv then str "High search volume - excellent traffic potential"
  else if 1000 <? sv then str "Good search volume - solid traffic opportunity"
  else str "Low search volume - niche targeting opportunity".

Definition competition_insight_Z (ci : Z) : pystr :=
  if ci <? 50 then str "Low competition - favorable ranking conditions"
  else if ci <? 80 then str "Medium competition - moderate SEO effort required"
  else str "High competition - intensive SEO strategy needed".

Definition commercial_insight_Z (cpc : Z) : pystr :=
  if 5 <? cpc then str "High commercial value - strong monetization potential"
  else if 1 <? cpc then str "Medium commercial value - decent revenue opportunity"
  else str "Low commercial value - primarily informational intent".

Definition commercial_insight_hundredths (n : Z) : pystr :=
  if 500 <? n then str "High commercial value - strong monetization potential"
  else if 100 <? n then str "Medium commercial value - decent revenue opportunity"
  else str "Low commercial value - primarily informational intent".

(** ** The running-shoes scenario *)

Definition running_shoes : KeywordMetric.t :=
  KeywordMetric.mk (Some (Some (str "running shoes")))
                   (Some (PInt 12000))
                   None
                   (Some (PInt 70))
                   (Some (PFloat (float_lit 35 10))).

(** The insights the scenario lists. *)
Definition running_shoes_listed_insights : list pystr :=
  [ str "Good search volume - solid traffic opportunity";
    str "Medium competition - moderate SEO effort required";
    str "Medium commercial value - decent revenue opportunity" ].

(** ** Ranks of floats and of scores *)

(** Floats other than NaN are ordered like the triples below, compared
    lexicographically. *)
Definition float_rank (f : spec_float) : Z * Z * Z :=
  match f with
  | S754_infinity true => (-2, 0, 0)
  | S754_finite true m e => (-1, - e, Zneg m)
  | S754_zero _ | S754_nan => (0, 0, 0)
  | S754_finite false m e => (1, e, Zpos m)
  | S754_infinity false => (2, 0, 0)
  end.

Definition lex3 (a b : Z * Z * Z) : comparison :=
  let '(a1, a2, a3) := a in
  let '(b1, b2, b3) := b in
  match a1 ?= b1 with
  | Eq => match a2 ?= b2 with
          | Eq => a3 ?= b3
          | c => c
          end
  | c => c
  end.

(** A score the sort can order: a float other than NaN. *)
Definition float_score (v : pynum) : bool :=
  match v with
  | PFloat f => negb (is_nan f)
  | PInt _ => false
  end.

(** ** Scores of a list, and a sample run *)

Definition score (e : EnrichedKeyword.t) : pynum :=
  EnrichedKeyword.opportunity_score e.

(** No score of the list is NaN. *)
Definition no_nan_scores (es : list EnrichedKeyword.t) : bool :=
  forallb (fun e => match score e with
                    | PFloat S754_nan => false
                    | _ => true
                    end) es.

(** A run with three provider records, two of them with the same score. *)
Definition trail_shoes : KeywordMetric.t :=
  KeywordMetric.mk (Some (Some (str "trail shoes"))) (Some (PInt 1000))
                   (Some (Some (str "MEDIUM"))) (Some (PInt 50))
                   (Some (PFloat (float_lit 12 10))).

Definition hiking_boots : KeywordMetric.t :=
  KeywordMetric.mk (Some (Some (str "hiking boots"))) (Some (PInt 1000))
                   (Some (Some (str "MEDIUM"))) (Some (PInt 50))
                   (Some (PFloat (float_lit 8 10))).

Definition demo_response : ProviderResponse.t :=
  ProviderResponse.mk 20000 (str "Ok.")
    [ ProviderResponse.mk_task (Some [trail_shoes; running_shoes; hiking_boots]) ].

Definition demo_analyzer : SEOAnalyzer :=
  {| website_url := Some (str "https://shoes.example");
     openai_client := {| chat_completions_create := fun _ => Ok (str "{}") |};
     dataforseo_client :=
       Some {| post := fun _ _ => Ok {| json := Ok demo_response |} |} |}.

Definition demo_keywords : pyval :=
  VList [ VStr (str "trail shoes"); VStr (str "running shoes");
          VStr (str "hiking boots") ].

Definition demo_analysis : pyval :=
  VDict [ (str "Name", VStr (str "Shoes")); (str "Keywords", demo_keywords) ].

(** A run with scores at and around 70. *)
Definition priced_metric (name : string) (search_volume : Z) (cpc : pynum)
  : KeywordMetric.t :=
  KeywordMetric.mk (Some (Some (str name))) (Some (PInt search_volume)) None
                   (Some (PInt 0)) (Some cpc).

Definition threshold_analyzer : SEOAnalyzer :=
  {| website_url := None;
     openai_client := {| chat_completions_create := fun _ => Ok (str "{}") |};
     dataforseo_client :=
       Some {| post := fun _ _ =>
                 Ok {| json :=
                         Ok (ProviderResponse.mk 20000 (str "Ok.")
                               [ProviderResponse.mk_task
                                  (Some [ priced_metric "a" 4000 (PFloat (float_lit 15 10));
                                          priced_metric "b" 4020 (PFloat (float_lit 225 100));
                                          priced_metric "c" 3980 (PFloat (float_lit 5 10));
                                          priced_metric "d" 20000 (PInt 3) ])]) |} |} |}.

(** An enriched record with the given cost per click and score. *)
Definition priced (search_volume : Z) (cpc score : pynum) : EnrichedKeyword.t :=
  {| EnrichedKeyword.keyword := Some (str "keyword");
     EnrichedKeyword.search_volume := PInt search_volume;
     EnrichedKeyword.competition := Some (str "UNKNOWN");
     EnrichedKeyword.competition_index := PInt 0;
     EnrichedKeyword.cpc := cpc;
     EnrichedKeyword.difficulty_score := 25;
     EnrichedKeyword.opportunity_score := score;
     EnrichedKeyword.seo_insights := [] |}.

(** The score [t / 10], as [round(., 1)] returns it. *)
Definition tenths (t : Z) : pynum := PFloat (float_lit t 10).

(** ** Fenced responses *)


(** A decoder that knows the empty object only. *)
Definition json_loads_empty_object (s : pystr) : result pyval :=
  if pystr_eqb s (str "{}") then Ok (VDict []) else Raise JSONDecodeError.

(** A text that is nested too deeply: 1100 opening brackets. *)
Definition nested_brackets : pystr := repeat 91%N 1100.

(** A decoder that knows the empty object and fails on [nested_brackets]
    as CPython's does: the recursion limit is hit before the end of the
    text is found missing. *)
Definition json_loads_nested (s : pystr) : result pyval :=
  if pystr_eqb s nested_brackets then Raise RecursionError
  else json_loads_empty_object s.

(** ** Counting calls in a trace *)

Definition is_fetch_call (ev : event) : bool :=
  match ev with FetchCall _ => true | _ => false end.

Definition is_provider_request (ev : event) : bool :=
  match ev with ProviderRequest _ _ => true | _ => false end.

(** How often [fetch_search_volume_data] was entered, and how often the
    provider was asked. *)
Definition fetch_calls (tr : list event) : nat :=
  length (filter is_fetch_call tr).

Definition provider_requests (tr : list event) : nat :=
  length (filter is_provider_request tr).

(** A decoder that returns an analysis without keywords. *)
Definition json_loads_no_keywords (s : pystr) : result pyval :=
  if pystr_eqb s (str "{}")
  then Ok (VDict [(str "Name", VStr (str "Shoes")); (str "Keywords", VList [])])
  else Raise JSONDecodeError.

(** ** A failing provider *)

(** The search-volume call fails: the request raises (transport failure),
    the body cannot be decoded, or the status code is not 20000. *)
Definition provider_failed (client : RestClient)
  (post_data : list (Z * PostTask)) : bool :=
  match post client search_volume_path post_data with
  | Raise _ => true
  | Ok response =>
      match json response with
      | Raise _ => true
      | Ok body => negb (ProviderResponse.status_code body =? 20000)
      end
  end.

(** An analyzer whose provider answers with an authentication error. *)
Definition failing_analyzer : SEOAnalyzer :=
  {| website_url := Some (str "https://shoes.example");
     openai_client := {| chat_completions_create := fun _ => Ok (str "{}") |};
     dataforseo_client :=
       Some {| post := fun _ _ =>
                 Ok {| json := Ok (ProviderResponse.mk 40100
                                     (str "Authentication failed.") []) |} |} |}.

(** A decoder that returns the sample analysis. *)
Definition json_loads_demo (s : pystr) : result pyval :=
  if pystr_eqb s (str "{}") then Ok demo_analysis else Raise JSONDecodeError.

(** ** Integer metrics *)

(** A float that is neither infinite nor NaN. *)
Definition finite_or_zero (f : spec_float) : bool :=
  match f with
  | S754_zero _ | S754_finite _ _ _ => true
  | _ => false
  end.

(** The search volume and the competition index are integers or absent. *)
Definition integer_metric (kd : KeywordMetric.t) : bool :=
  match KeywordMetric.search_volume kd, KeywordMetric.competition_index kd with
  | (None | Some (PInt _)), (None | Some (PInt _)) => true
  | _, _ => false
  end.

(** * Further notions *)

(** ** Events of a trace and shapes of values *)

Definition is_openai_request (ev : event) : bool :=
  match ev with OpenAIRequest _ => true | _ => false end.

Definition is_report (ev : event) : bool :=
  match ev with Report _ _ => true | _ => false end.

(** How often the language model was asked, and how often the report was
    printed. *)
Definition openai_requests (tr : list event) : nat :=
  length (filter is_openai_request tr).

Definition reports (tr : list event) : nat :=
  length (filter is_report tr).

Definition is_dict (v : pyval) : bool :=
  match v with VDict _ => true | _ => false end.



(** The outcome and the trace of a computation. *)
Definition outcome {A} (m : io A) : result A := snd m.
Definition trace {A} (m : io A) : list event := fst m.

(** ** More sample analyzers *)

(** An analyzer whose provider answers with success and an empty list. *)
Definition empty_result_analyzer : SEOAnalyzer :=
  {| website_url := Some (str "https://shoes.example");
     openai_client := {| chat_completions_create := fun _ => Ok (str "{}") |};
     dataforseo_client :=
       Some {| post := fun _ _ =>
                 Ok {| json := Ok (ProviderResponse.mk 20000 (str "Ok.")
                                     [ProviderResponse.mk_task (Some [])]) |} |} |}.

(** An analyzer whose provider answers with success and no task. *)
Definition no_task_analyzer : SEOAnalyzer :=
  {| website_url := Some (str "https://shoes.example");
     openai_client := {| chat_completions_create := fun _ => Ok (str "{}") |};
     dataforseo_client :=
       Some {| post := fun _ _ =>
                 Ok {| json := Ok (ProviderResponse.mk 20000 (str "Ok.") []) |} |} |}.



(** A provider record with the given integer metrics. *)
Definition metric (name : string) (search_volume competition_index : Z)
  : KeywordMetric.t :=
  KeywordMetric.mk (Some (Some (str name))) (Some (PInt search_volume)) None
                   (Some (PInt competition_index)) None.

(** An analyzer whose provider knows seven keywords. *)
Definition seven_record_analyzer : SEOAnalyzer :=
  {| website_url := None;
     openai_client := {| chat_completions_create := fun _ => Ok (str "{}") |};
     dataforseo_client :=
       Some {| post := fun _ _ =>
                 Ok {| json := Ok (ProviderResponse.mk 20000 (str "Ok.")
                                     [ProviderResponse.mk_task
                                        (Some [ metric "a" 100 90;
                                                metric "b" 9000 10;
                                                metric "c" 500 50;
                                                metric "d" 20000 0;
                                                metric "e" 0 100;
                                                metric "f" 4000 30;
                                                metric "g" 2500 75 ])]) |} |} |}.

(** An analyzer without search-data credentials. *)
Definition unconfigured_analyzer : SEOAnalyzer :=
  {| website_url := Some (str "https://shoes.example");
     openai_client := {| chat_completions_create := fun _ => Ok (str "{}") |};
     dataforseo_client := None |}.

(** An analyzer that cannot reach the language model. *)
Definition offline_analyzer : SEOAnalyzer :=
  {| website_url := Some (str "https://shoes.example");
     openai_client :=
       {| chat_completions_create :=
            fun _ => Raise (OtherError (str "APIConnectionError")) |};
     dataforseo_client := None |}.

(** An analyzer whose language model answers in prose. *)
Definition chatty_analyzer : SEOAnalyzer :=
  {| website_url := Some (str "https://shoes.example");
     openai_client :=
       {| chat_completions_create := fun _ => Ok (str "Sure! Here it is.") |};
     dataforseo_client := None |}.

(** A decoder that returns a list of keywords instead of an object. *)
Definition json_loads_list (s : pystr) : result pyval :=
  if pystr_eqb s (str "{}") then Ok demo_keywords else Raise JSONDecodeError.

(** An analyzer whose language model answers with [nested_brackets]. *)
Definition nesting_analyzer : SEOAnalyzer :=
  {| website_url := Some (str "https://shoes.example");
     openai_client :=
       {| chat_completions_create := fun _ => Ok nested_brackets |};
     dataforseo_client := None |}.

(** A provider record whose cost per click is the integer [2 ** 1024]. *)
Definition overpriced_shoes : KeywordMetric.t :=
  KeywordMetric.mk (Some (Some (str "gold shoes"))) (Some (PInt 300)) None
                   (Some (PInt 20)) (Some (PInt (2 ^ 1024))).

Definition overpriced_analyzer : SEOAnalyzer :=
  {| website_url := None;
     openai_client := {| chat_completions_create := fun _ => Ok (str "{}") |};
     dataforseo_client :=
       Some {| post := fun _ _ =>
                 Ok {| json := Ok (ProviderResponse.mk 20000 (str "Ok.")
                                     [ProviderResponse.mk_task
                                        (Some [trail_shoes; overpriced_shoes])]) |} |} |}.

(** * Properties *)

(** ** Comparisons with integer thresholds *)

Lemma py_compare_int_int (a b : Z) :
  py_compare (PInt a) (PInt b) = Some (a ?= b).
Proof. reflexivity. Qed.

Lemma py_ge_int (a b : Z) : py_ge (PInt a) (PInt b) = (b <=? a).
Proof.
  unfold py_ge; simpl. rewrite Z.leb_compare, (Z.compare_antisym a b).
  now destruct (a ?= b).
Qed.

Lemma py_gt_int (a b : Z) : py_gt (PInt a) (PInt b) = (b <? a).
Proof.
  unfold py_gt; simpl. rewrite Z.ltb_compare, (Z.compare_antisym a b).
  now destruct (a ?= b).
Qed.

Lemma py_lt_int (a b : Z) : py_lt (PInt a) (PInt b) = (a <? b).
Proof. unfold py_lt; simpl. now rewrite Z.ltb_compare. Qed.

Lemma py_le_int (a b : Z) : py_le (PInt a) (PInt b) = (a <=? b).
Proof. unfold py_le; simpl. rewrite Z.leb_compare. now destruct (a ?= b). Qed.

(** A number that compares with one integer compares with all of them:
    only NaN is unordered. *)
Lemma py_compare_int_defined (x : pynum) (a b : Z) (c : comparison) :
  py_compare x (PInt a) = Some c ->
  exists c', py_compare x (PInt b) = Some c'.
Proof.
  destruct x as [z | f]; simpl.
  - eauto.
  - destruct f; simpl; try discriminate; eauto.
Qed.

Lemma py_ge_not_ge_lt (x : pynum) (a b : Z) :
  py_ge x (PInt a) = true -> py_ge x (PInt b) = false ->
  py_lt x (PInt b) = true.
Proof.
  unfold py_ge, py_lt. intros Ha Hb.
  destruct (py_compare x (PInt a)) as [c |] eqn:E; [| discriminate].
  destruct (py_compare_int_defined x a b c E) as [c' E'].
  rewrite E' in *. now destruct c'.
Qed.

Lemma py_gt_not_gt_le (x : pynum) (a b : Z) :
  py_gt x (PInt a) = true -> py_gt x (PInt b) = false ->
  py_le x (PInt b) = true.
Proof.
  unfold py_gt, py_le. intros Ha Hb.
  destruct (py_compare x (PInt a)) as [c |] eqn:E; [| discriminate].
  destruct (py_compare_int_defined x a b c E) as [c' E'].
  rewrite E' in *. now destruct c'.
Qed.

Lemma py_ge_lt_false (x y : pynum) :
  py_ge x y = true -> py_lt x y = false.
Proof. unfold py_ge, py_lt. now destruct (py_compare x y) as [[]|]. Qed.

Lemma get_or_0_int (z : Z) : get_or_0 (Some (PInt z)) = PInt z.
Proof.
  unfold get_or_0; simpl. destruct (Z.eqb_spec z 0); subst; reflexivity.
Qed.

(** ** Difficulty score *)

Lemma base_tier_int (ci : Z) : base_tier (PInt ci) = base_tier_Z ci.
Proof.
  unfold base_tier, base_tier_Z. now rewrite !py_ge_int, !py_lt_int.
Qed.

Lemma volume_adjustment_int (sv : Z) :
  volume_adjustment (PInt sv) = volume_adjustment_Z sv.
Proof.
  unfold volume_adjustment, volume_adjustment_Z.
  now rewrite !py_gt_int, !py_le_int.
Qed.

Lemma base_tier_elif (ci : pynum) :
  (if py_ge ci (PInt 80) then 85
   else if py_ge ci (PInt 60) then 65
   else if py_ge ci (PInt 40) then 45
   else 25) = base_tier ci.
Proof.
  unfold base_tier.
  destruct (py_ge ci (PInt 80)) eqn:E80; [reflexivity |].
  destruct (py_ge ci (PInt 60)) eqn:E60.
  - now rewrite (py_ge_not_ge_lt ci 60 80 E60 E80).
  - destruct (py_ge ci (PInt 40)) eqn:E40; [| reflexivity].
    now rewrite (py_ge_not_ge_lt ci 40 60 E40 E60).
Qed.

Lemma volume_adjustment_elif (sv : pynum) (base : Z) :
  (if py_gt sv (PInt 10000) then base + 10
   else if py_gt sv (PInt 1000) then base + 5
   else base) = base + volume_adjustment sv.
Proof.
  unfold volume_adjustment.
  destruct (py_gt sv (PInt 10000)) eqn:E1; [reflexivity |].
  destruct (py_gt sv (PInt 1000)) eqn:E2.
  - now rewrite (py_gt_not_gt_le sv 1000 10000 E2 E1).
  - simpl. lia.
Qed.

Lemma base_tier_range (ci : pynum) : 25 <= base_tier ci <= 85.
Proof.
  unfold base_tier.
  repeat match goal with |- context [if ?b then _ else _] => destruct b end; lia.
Qed.

Lemma volume_adjustment_range (sv : pynum) : 0 <= volume_adjustment sv <= 10.
Proof.
  unfold volume_adjustment.
  repeat match goal with |- context [if ?b then _ else _] => destruct b end; lia.
Qed.

Lemma difficulty_unfold (kd : KeywordMetric.t) :
  _calculate_difficulty_score kd =
  Z.min 100 (base_tier (get_or_0 (KeywordMetric.competition_index kd))
             + volume_adjustment (get_or_0 (KeywordMetric.search_volume kd))).
Proof.
  unfold _calculate_difficulty_score.
  now rewrite base_tier_elif, volume_adjustment_elif.
Qed.

(** C1.  For every keyword record the difficulty score is
    [min(100, base + adjustment)]: the base is 85 for a competition index
    of at least 80, 65 on [60, 80), 45 on [40, 60) and 25 otherwise; the
    adjustment is 10 above 10000 searches, 5 on (1000, 10000] and 0
    otherwise.  Absent fields count as 0, and on integer fields the tiers
    are those of the integer order. *)
Theorem difficulty_score_spec :
  (forall kd : KeywordMetric.t,
      _calculate_difficulty_score kd =
      Z.min 100 (base_tier (get_or_0 (KeywordMetric.competition_index kd))
                 + volume_adjustment (get_or_0 (KeywordMetric.search_volume kd))))
  /\ (forall k c p (ci sv : Z),
         _calculate_difficulty_score
           (KeywordMetric.mk k (Some (PInt sv)) c (Some (PInt ci)) p) =
         Z.min 100 (base_tier_Z ci + volume_adjustment_Z sv))
  /\ (forall k c p,
         _calculate_difficulty_score (KeywordMetric.mk k None c None p) = 25).
Proof.
  split; [exact difficulty_unfold |]. split.
  - intros. rewrite difficulty_unfold. simpl KeywordMetric.competition_index.
    simpl KeywordMetric.search_volume.
    now rewrite !get_or_0_int, base_tier_int, volume_adjustment_int.
  - reflexivity.
Qed.

(** C10.  With a competition index in [0, 100] and a non-negative search
    volume the difficulty score lies in [25, 95], and the clamp to 100
    does not change the sum of base tier and adjustment. *)
Theorem difficulty_score_range (kd : KeywordMetric.t) :
  let ci := get_or_0 (KeywordMetric.competition_index kd) in
  let sv := get_or_0 (KeywordMetric.search_volume kd) in
  py_le (PInt 0) ci = true -> py_le ci (PInt 100) = true ->
  py_le (PInt 0) sv = true ->
  25 <= _calculate_difficulty_score kd <= 95
  /\ _calculate_difficulty_score kd = base_tier ci + volume_adjustment sv
  /\ base_tier ci + volume_adjustment sv <= 85 + 10.
Proof.
  intros ci sv _ _ _. rewrite difficulty_unfold. fold ci sv.
  pose proof (base_tier_range ci). pose proof (volume_adjustment_range sv).
  lia.
Qed.

Lemma difficulty_score_range_witness :
  let kd := KeywordMetric.mk None (Some (PInt 20000)) None (Some (PInt 100)) None in
  25 <= _calculate_difficulty_score kd <= 95
  /\ _calculate_difficulty_score kd = 95.
Proof.
  intros kd.
  destruct (difficulty_score_range kd) as (H1 & H2 & H3);
    [reflexivity | reflexivity | reflexivity |].
  split; [exact H1 | reflexivity].
Defined.

(** ** Opportunity score *)

Lemma forallb_Z_range (P : Z -> bool) (lo n : Z) :
  forallb P (map (fun i => lo + Z.of_nat i) (seq 0 (Z.to_nat n))) = true ->
  forall z, lo <= z < lo + n -> P z = true.
Proof.
  intros H z Hz. rewrite forallb_forall in H. apply H.
  apply in_map_iff. exists (Z.to_nat (z - lo)). split; [lia |].
  apply in_seq. lia.
Qed.

Lemma negative_above_100 :
  forallb (fun ci => is_negative (_calculate_opportunity_score (competition_only ci)))
          (map (fun i => 101 + Z.of_nat i) (seq 0 (Z.to_nat 1900))) = true.
Proof. vm_compute. reflexivity. Qed.

Lemma forallb_range (P : Z -> bool) (lo n : Z) :
  forallb P (Z_range lo n) = true -> forall z, lo <= z < lo + n -> P z = true.
Proof. exact (forallb_Z_range P lo n). Qed.

Lemma float_eqb_eq (f g : spec_float) : float_eqb f g = true -> f = g.
Proof.
  destruct f as [s | s | | s m e], g as [t | t | | t n d]; simpl;
    try discriminate; try reflexivity.
  - intros H. apply Bool.eqb_prop in H. now subst.
  - intros H. apply Bool.eqb_prop in H. now subst.
  - intros H. apply andb_prop in H as [H He]. apply andb_prop in H as [Hs Hm].
    apply Bool.eqb_prop in Hs. apply Pos.eqb_eq in Hm. apply Z.eqb_eq in He.
    now subst.
Qed.

Lemma returns_float_eq (r : result pynum) (f : spec_float) :
  returns_float r f = true -> r = Ok (PFloat f).
Proof.
  destruct r as [[z | g] | e]; simpl; try discriminate.
  intros H. now rewrite (float_eqb_eq g f H).
Qed.

Lemma opportunity_grid :
  forallb (fun i =>
             forallb (fun j =>
                        returns_float
                          (_calculate_opportunity_score
                             (volume_and_competition (200 * i) (5 * j)))
                          (float_lit (10 * Z.min 50 i + 500 - 25 * j) 10))
                     (Z_range 0 21))
          (Z_range 0 61) = true.
Proof. vm_compute. reflexivity. Qed.

Lemma opportunity_volume_tenths :
  forallb (fun j =>
             returns_float (_calculate_opportunity_score (volume_only (20 * j)))
                           (float_lit (Z.min 500 j + 500) 10))
          (Z_range 0 601) = true.
Proof. vm_compute. reflexivity. Qed.

Lemma opportunity_competition :
  forallb (fun ci =>
             returns_float (_calculate_opportunity_score (competition_only ci))
                           (float_lit (500 - 5 * ci) 10))
          (Z_range 0 2001) = true.
Proof. vm_compute. reflexivity. Qed.

Lemma opportunity_nearest_tenth :
  forallb (fun sv =>
             nearest_tenth_of_200th (sv + 10000)
               (_calculate_opportunity_score (volume_only sv)))
          (Z_range 0 1001) = true.
Proof. vm_compute. reflexivity. Qed.

Lemma nearest_tenth_of_200th_spec (n : Z) (r : result pynum) :
  nearest_tenth_of_200th n r = true ->
  exists t, r = Ok (PFloat (float_lit t 10)) /\ Z.abs (20 * t - n) <= 10.
Proof.
  unfold nearest_tenth_of_200th. intros H.
  pose proof (Z.div_mod n 20 ltac:(lia)) as D.
  pose proof (Z.mod_pos_bound n 20 ltac:(lia)) as B.
  apply orb_prop in H as [H | H]; apply andb_prop in H as [Hm Hr];
    apply returns_float_eq in Hr.
  - exists (n / 20). split; [exact Hr |]. apply Z.leb_le in Hm. lia.
  - exists (n / 20 + 1). split; [exact Hr |]. apply Z.leb_le in Hm. lia.
Qed.

(** C2.  For every keyword record the opportunity score is
    [round(min(50, search_volume / 200) + (50 - competition_index / 2), 1)]
    on the fields with absent values read as 0.  On explicit records: the
    volume part grows by one point per 200 searches and stops at 50, the
    competition part falls by half a point per index point, the two are
    added, and the sum is rounded to the nearest tenth (50.55 to 50.5,
    50.35 to 50.4, 50.25 to 50.2, 50.75 to 50.8, as the doubles fall).
    The competition part is not clamped at 0: with no search volume an
    integer competition index [ci] up to 2000 scores [50 - ci / 2], which is
    negative above 100, e.g. -1.0 at 102. *)
Theorem opportunity_score_spec :
  (forall kd : KeywordMetric.t,
      _calculate_opportunity_score kd =
      opportunity_formula (get_or_0 (KeywordMetric.search_volume kd))
                          (get_or_0 (KeywordMetric.competition_index kd)))
  /\ (forall k c p (i j : Z), 0 <= i <= 60 -> 0 <= j <= 20 ->
         _calculate_opportunity_score
           (KeywordMetric.mk k (Some (PInt (200 * i))) c (Some (PInt (5 * j))) p)
         = Ok (PFloat (float_lit (10 * Z.min 50 i + 500 - 25 * j) 10)))
  /\ (forall k c p (j : Z), 0 <= j <= 600 ->
         _calculate_opportunity_score
           (KeywordMetric.mk k (Some (PInt (20 * j))) c None p)
         = Ok (PFloat (float_lit (Z.min 500 j + 500) 10)))
  /\ (forall k c p (ci : Z), 0 <= ci <= 2000 ->
         _calculate_opportunity_score
           (KeywordMetric.mk k None c (Some (PInt ci)) p)
         = Ok (PFloat (float_lit (500 - 5 * ci) 10)))
  /\ (forall k c p (sv : Z), 0 <= sv <= 1000 ->
         exists t,
           _calculate_opportunity_score
             (KeywordMetric.mk k (Some (PInt sv)) c None p)
           = Ok (PFloat (float_lit t 10))
           /\ Z.abs (20 * t - (sv + 10000)) <= 10)
  /\ (_calculate_opportunity_score (volume_and_competition 110 0)
      = Ok (PFloat (float_lit 505 10))
      /\ _calculate_opportunity_score (volume_and_competition 70 0)
         = Ok (PFloat (float_lit 504 10))
      /\ _calculate_opportunity_score (volume_and_competition 50 0)
         = Ok (PFloat (float_lit 502 10))
      /\ _calculate_opportunity_score (volume_and_competition 150 0)
         = Ok (PFloat (float_lit 508 10))
      /\ _calculate_opportunity_score (volume_and_competition 10 1)
         = Ok (PFloat (float_lit 495 10))
      /\ _calculate_opportunity_score (volume_and_competition 4321 12)
         = Ok (PFloat (float_lit 656 10))
      /\ _calculate_opportunity_score (volume_and_competition 12345 67)
         = Ok (PFloat (float_lit 665 10)))
  /\ (_calculate_opportunity_score running_shoes
      = Ok (PFloat (S754_finite false 4573968371548160 (-46)))
      /\ _calculate_opportunity_score (volume_only 110)
         = Ok (PFloat (S754_finite false 7107243161944064 (-47)))
      /\ _calculate_opportunity_score (KeywordMetric.mk None None None None None)
         = Ok (PFloat (S754_finite false 7036874417766400 (-47))))
  /\ (forall ci : Z, 100 < ci <= 2000 ->
        is_negative (_calculate_opportunity_score (competition_only ci)) = true)
  /\ _calculate_opportunity_score (competition_only 102)
     = Ok (PFloat (float_lit (-10) 10)).
Proof.
  split; [reflexivity |].
  split.
  { intros k c p i j Hi Hj.
    change (_calculate_opportunity_score
              (volume_and_competition (200 * i) (5 * j))
            = Ok (PFloat (float_lit (10 * Z.min 50 i + 500 - 25 * j) 10))).
    apply returns_float_eq.
    pose proof (forallb_range _ 0 61 opportunity_grid i ltac:(lia)) as H.
    cbv beta in H.
    exact (forallb_range _ 0 21 H j ltac:(lia)). }
  split.
  { intros k c p j Hj.
    change (_calculate_opportunity_score (volume_only (20 * j))
            = Ok (PFloat (float_lit (Z.min 500 j + 500) 10))).
    apply returns_float_eq.
    exact (forallb_range _ 0 601 opportunity_volume_tenths j ltac:(lia)). }
  split.
  { intros k c p ci Hci.
    change (_calculate_opportunity_score (competition_only ci)
            = Ok (PFloat (float_lit (500 - 5 * ci) 10))).
    apply returns_float_eq.
    exact (forallb_range _ 0 2001 opportunity_competition ci ltac:(lia)). }
  split.
  { intros k c p sv Hsv.
    change (exists t,
               _calculate_opportunity_score (volume_only sv)
               = Ok (PFloat (float_lit t 10))
               /\ Z.abs (20 * t - (sv + 10000)) <= 10).
    apply nearest_tenth_of_200th_spec.
    exact (forallb_range _ 0 1001 opportunity_nearest_tenth sv ltac:(lia)). }
  split; [repeat split; vm_compute; reflexivity |].
  split; [repeat split; vm_compute; reflexivity |].
  split.
  - intros ci Hci.
    apply (forallb_Z_range _ 101 1900 negative_above_100). lia.
  - vm_compute. reflexivity.
Qed.

Lemma opportunity_score_spec_witness :
  is_negative (_calculate_opportunity_score (competition_only 150)) = true
  /\ _calculate_opportunity_score running_shoes = Ok (PFloat (float_lit 650 10))
  /\ _calculate_opportunity_score (competition_only 150)
     = Ok (PFloat (float_lit (-250) 10)).
Proof.
  destruct opportunity_score_spec as (_ & Hgrid & _ & Hci & _ & _ & _ & H & _).
  split; [apply (H 150); lia |].
  split.
  - apply (Hgrid (Some (Some (str "running shoes"))) None
                 (Some (PFloat (float_lit 35 10))) 60 14); lia.
  - apply (Hci None None None 150). lia.
Defined.

(** ** Insights *)

Lemma pystr_eqb_eq (a b : pystr) : pystr_eqb a b = true -> a = b.
Proof.
  unfold pystr_eqb. now destruct (list_eq_dec N.eq_dec a b).
Qed.

Lemma commercial_insight_by_hundredths :
  forallb (fun n =>
             pystr_eqb
               (commercial_insight (get_or_0 (Some (PFloat (float_lit n 100)))))
               (commercial_insight_hundredths n))
          (Z_range 0 1001) = true.
Proof. vm_compute. reflexivity. Qed.

Lemma seo_insights_shape (kd : KeywordMetric.t) :
  _generate_seo_insights kd =
  [ traffic_insight (get_or_0 (KeywordMetric.search_volume kd));
    competition_insight (get_or_0 (KeywordMetric.competition_index kd));
    commercial_insight (get_or_0 (KeywordMetric.cpc kd)) ].
Proof.
  unfold _generate_seo_insights, traffic_insight, competition_insight,
    commercial_insight.
  repeat match goal with
         | |- context [if ?b then _ else _] => destruct b
         end; reflexivity.
Qed.

Lemma traffic_insight_int (sv : Z) :
  traffic_insight (get_or_0 (Some (PInt sv))) = traffic_insight_Z sv.
Proof.
  unfold traffic_insight, traffic_insight_Z, get_or_0, num_truthy.
  destruct (Z.eqb_spec sv 0) as [-> | _]; [reflexivity |].
  cbn [negb]. now rewrite !py_gt_int.
Qed.

Lemma competition_insight_int (ci : Z) :
  competition_insight (get_or_0 (Some (PInt ci))) = competition_insight_Z ci.
Proof.
  unfold competition_insight, competition_insight_Z, get_or_0, num_truthy.
  destruct (Z.eqb_spec ci 0) as [-> | _]; [reflexivity |].
  cbn [negb]. now rewrite !py_lt_int.
Qed.

Lemma commercial_insight_int (cpc : Z) :
  commercial_insight (get_or_0 (Some (PInt cpc))) = commercial_insight_Z cpc.
Proof.
  unfold commercial_insight, commercial_insight_Z, get_or_0, num_truthy.
  destruct (Z.eqb_spec cpc 0) as [-> | _]; [reflexivity |].
  cbn [negb]. now rewrite !py_gt_int.
Qed.

(** C3.  For every keyword record [seo_insights] is a list of exactly
    three strings: the traffic insight by the tiers [> 5000], [> 1000],
    else; the competition insight by [< 50], [< 80], else; the
    commercial-value insight by [cpc > 5], [cpc > 1], else.  The
    thresholds themselves fall in the lower traffic and value tiers and in
    the upper competition tier.  A record with integer fields carries the
    insights of its three integers, a cost per click given in hundredths
    up to 10.00 is tiered at 5.00 and 1.00, and a record without the three
    fields carries the three "Low" insights. *)
Theorem seo_insights_spec :
  (forall kd : KeywordMetric.t,
      _generate_seo_insights kd =
      [ traffic_insight (get_or_0 (KeywordMetric.search_volume kd));
        competition_insight (get_or_0 (KeywordMetric.competition_index kd));
        commercial_insight (get_or_0 (KeywordMetric.cpc kd)) ])
  /\ (forall kd, length (_generate_seo_insights kd) = 3%nat)
  /\ (forall sv : Z,
         traffic_insight (PInt sv) =
         if 5000 <? sv then str "High search volume - excellent traffic potential"
         else if 1000 <? sv then str "Good search volume - solid traffic opportunity"
         else str "Low search volume - niche targeting opportunity")
  /\ (forall ci : Z,
         competition_insight (PInt ci) =
         if ci <? 50 then str "Low competition - favorable ranking conditions"
         else if ci <? 80 then str "Medium competition - moderate SEO effort required"
         else str "High competition - intensive SEO strategy needed")
  /\ (forall cpc : Z,
         commercial_insight (PInt cpc) =
         if 5 <? cpc then str "High commercial value - strong monetization potential"
         else if 1 <? cpc then str "Medium commercial value - decent revenue opportunity"
         else str "Low commercial value - primarily informational intent")
  /\ (commercial_insight (PFloat (float_lit 5 1))
      = str "Medium commercial value - decent revenue opportunity"
      /\ commercial_insight (PFloat (float_lit 501 100))
         = str "High commercial value - strong monetization potential"
      /\ commercial_insight (PFloat (float_lit 1 1))
         = str "Low commercial value - primarily informational intent"
      /\ commercial_insight (PFloat (float_lit 101 100))
         = str "Medium commercial value - decent revenue opportunity")
  /\ (forall k c (sv ci cpc : Z),
         _generate_seo_insights
           (KeywordMetric.mk k (Some (PInt sv)) c (Some (PInt ci)) (Some (PInt cpc)))
         = [ traffic_insight_Z sv; competition_insight_Z ci;
             commercial_insight_Z cpc ])
  /\ (forall k c (sv ci n : Z), 0 <= n <= 1000 ->
         _generate_seo_insights
           (KeywordMetric.mk k (Some (PInt sv)) c (Some (PInt ci))
                             (Some (PFloat (float_lit n 100))))
         = [ traffic_insight_Z sv; competition_insight_Z ci;
             commercial_insight_hundredths n ])
  /\ (forall k c,
         _generate_seo_insights (KeywordMetric.mk k None c None None)
         = [ str "Low search volume - niche targeting opportunity";
             str "Low competition - favorable ranking conditions";
             str "Low commercial value - primarily informational intent" ])
  /\ (_generate_seo_insights
        (KeywordMetric.mk None (Some (PInt 5000)) None (Some (PInt 50))
                          (Some (PFloat (float_lit 500 100))))
      = [ str "Good search volume - solid traffic opportunity";
          str "Medium competition - moderate SEO effort required";
          str "Medium commercial value - decent revenue opportunity" ]
      /\ _generate_seo_insights
           (KeywordMetric.mk None (Some (PInt 5001)) None (Some (PInt 49))
                             (Some (PFloat (float_lit 501 100))))
         = [ str "High search volume - excellent traffic potential";
             str "Low competition - favorable ranking conditions";
             str "High commercial value - strong monetization potential" ]
      /\ _generate_seo_insights
           (KeywordMetric.mk None (Some (PInt 1000)) None (Some (PInt 80))
                             (Some (PInt 1)))
         = [ str "Low search volume - niche targeting opportunity";
             str "High competition - intensive SEO strategy needed";
             str "Low commercial value - primarily informational intent" ]
      /\ _generate_seo_insights
           (KeywordMetric.mk None (Some (PInt 1001)) None (Some (PInt 79))
                             (Some (PFloat (float_lit 101 100))))
         = [ str "Good search volume - solid traffic opportunity";
             str "Medium competition - moderate SEO effort required";
             str "Medium commercial value - decent revenue opportunity" ]).
Proof.
  split; [exact seo_insights_shape |].
  split; [intros kd; now rewrite seo_insights_shape |].
  split; [intros sv; unfold traffic_insight; now rewrite !py_gt_int |].
  split; [intros ci; unfold competition_insight; now rewrite !py_lt_int |].
  split; [intros cpc; unfold commercial_insight; now rewrite !py_gt_int |].
  split; [repeat split; vm_compute; reflexivity |].
  split.
  { intros k c sv ci cpc. rewrite seo_insights_shape.
    cbn [KeywordMetric.search_volume KeywordMetric.competition_index
         KeywordMetric.cpc].
    now rewrite traffic_insight_int, competition_insight_int,
      commercial_insight_int. }
  split.
  { intros k c sv ci n Hn. rewrite seo_insights_shape.
    cbn [KeywordMetric.search_volume KeywordMetric.competition_index
         KeywordMetric.cpc].
    rewrite traffic_insight_int, competition_insight_int.
    do 2 f_equal. f_equal. apply pystr_eqb_eq.
    exact (forallb_range _ 0 1001 commercial_insight_by_hundredths n
             ltac:(lia)). }
  split; [reflexivity |].
  repeat split; vm_compute; reflexivity.
Qed.

Lemma seo_insights_spec_witness :
  _generate_seo_insights running_shoes
  = [ str "High search volume - excellent traffic potential";
      str "Medium competition - moderate SEO effort required";
      str "Medium commercial value - decent revenue opportunity" ].
Proof.
  destruct seo_insights_spec as (_ & _ & _ & _ & _ & _ & _ & H & _).
  apply (H (Some (Some (str "running shoes"))) None 12000 70 350). lia.
Defined.

(** ** The running-shoes scenario *)

(** C4, as stated, fails: the enriched record of the scenario does not
    carry the listed insights, since 12000 searches are above 5000. *)
Lemma running_shoes_listed_insights_wrong :
  ~ (exists e,
        _format_keyword_analytics running_shoes = Ok e
        /\ EnrichedKeyword.difficulty_score e = 75
        /\ EnrichedKeyword.opportunity_score e = PFloat (float_lit 650 10)
        /\ EnrichedKeyword.seo_insights e = running_shoes_listed_insights).
Proof.
  intros (e & He & _ & _ & Hi).
  vm_compute in He. injection He as <-.
  vm_compute in Hi. discriminate Hi.
Qed.

(** C4, amended.  The enriched record of the scenario has difficulty 75,
    opportunity 65.0 and the insights "High search volume - excellent
    traffic potential", "Medium competition - moderate SEO effort
    required", "Medium commercial value - decent revenue opportunity". *)
Theorem running_shoes_enriched :
  _format_keyword_analytics running_shoes =
  Ok {| EnrichedKeyword.keyword := Some (str "running shoes");
        EnrichedKeyword.search_volume := PInt 12000;
        EnrichedKeyword.competition := Some (str "UNKNOWN");
        EnrichedKeyword.competition_index := PInt 70;
        EnrichedKeyword.cpc := PFloat (float_lit 35 10);
        EnrichedKeyword.difficulty_score := 75;
        EnrichedKeyword.opportunity_score := PFloat (float_lit 650 10);
        EnrichedKeyword.seo_insights :=
          [ str "High search volume - excellent traffic potential";
            str "Medium competition - moderate SEO effort required";
            str "Medium commercial value - decent revenue opportunity" ] |}.
Proof. vm_compute. reflexivity. Qed.

(** ** The stable sort *)

Section SortFacts.
Context {A K : Type}.
Variable key : A -> K.
Variable ltk : K -> K -> bool.

(** The keys on which [ltk] is a strict weak order. *)
Variable ordered : K -> Prop.
Hypothesis ltk_asym :
  forall a b, ordered a -> ordered b -> ltk a b = true -> ltk b a = false.
Hypothesis ltk_negtrans :
  forall a b c, ordered a -> ordered b -> ordered c ->
    ltk a b = false -> ltk b c = false -> ltk a c = false.

Let lt (a b : A) : bool := ltk (key a) (key b).

Lemma isort_cons (x : A) (l : list A) :
  isort key ltk (x :: l) = insert lt x (isort key ltk l).
Proof. reflexivity. Qed.

Lemma stable_sort_rev (l : list A) :
  stable_sort lt (rev l) = isort key ltk l.
Proof.
  unfold stable_sort, isort.
  rewrite <- (rev_involutive l) at 2.
  now rewrite fold_left_rev_right.
Qed.

Lemma insert_perm (x : A) (l : list A) : Permutation (x :: l) (insert lt x l).
Proof.
  induction l as [| y l IH]; simpl; [reflexivity |].
  destruct (lt x y); [reflexivity |].
  rewrite perm_swap. now apply perm_skip.
Qed.

Lemma isort_perm (l : list A) : Permutation l (isort key ltk l).
Proof.
  induction l as [| x l IH]; [constructor |].
  rewrite isort_cons, <- insert_perm. now apply perm_skip.
Qed.

Lemma insert_ascending (x : A) (l : list A) :
  ordered (key x) -> all_ordered key ordered l ->
  ascending key ltk l -> ascending key ltk (insert lt x l).
Proof.
  intros Hx Hl Hs. induction Hs as [| y l Hs IH Hy]; simpl.
  - repeat constructor.
  - apply Forall_cons_iff in Hl as [Hoy Hl].
    destruct (lt x y) eqn:E.
    + constructor; [now constructor |].
      constructor; [now apply ltk_asym |].
      rewrite Forall_forall in Hy, Hl |- *. intros b Hb.
      assert (H1 : ltk (key b) (key y) = false) by now apply Hy.
      assert (H2 : ltk (key y) (key x) = false) by now apply ltk_asym.
      apply (ltk_negtrans (key b) (key y) (key x)); auto.
    + constructor; [now apply IH |].
      apply (Permutation_Forall (insert_perm x l)).
      now constructor.
Qed.

Lemma isort_all_ordered (l : list A) :
  all_ordered key ordered l -> all_ordered key ordered (isort key ltk l).
Proof. intros H. exact (Permutation_Forall (isort_perm l) H). Qed.

Lemma isort_ascending (l : list A) :
  all_ordered key ordered l -> ascending key ltk (isort key ltk l).
Proof.
  induction l as [| x l IH]; intros H; [constructor |].
  apply Forall_cons_iff in H as [Hx H]. rewrite isort_cons.
  apply insert_ascending; auto. now apply isort_all_ordered.
Qed.

(** Behind the place where [x] is inserted nothing ties with [x]. *)
Lemma filter_tie_behind (v : K) (x y : A) (l : list A) :
  ordered v -> ordered (key x) ->
  all_ordered key ordered (y :: l) -> ascending key ltk (y :: l) ->
  lt x y = true -> tie ltk v (key x) = true ->
  filter (fun a => tie ltk v (key a)) (y :: l) = [].
Proof.
  intros Hv Hx Hl Hs Hxy Hvx.
  apply andb_prop in Hvx as [Hvx1 Hvx2].
  apply negb_true_iff in Hvx1, Hvx2.
  apply StronglySorted_inv in Hs as [_ Hy].
  assert (Hy' : ordered (key y)) by now apply Forall_cons_iff in Hl as [? _].
  assert (Hall : Forall (fun a => ltk (key a) (key y) = false) (y :: l)).
  { constructor; [| exact Hy].
    destruct (ltk (key y) (key y)) eqn:E; [| reflexivity].
    pose proof (ltk_asym _ _ Hy' Hy' E) as E'. congruence. }
  clear Hy. revert Hall Hl. generalize (y :: l) as l'.
  induction l' as [| z l' IH]; intros Hall Hl; [reflexivity |].
  apply Forall_cons_iff in Hall as [Hzy Hall].
  apply Forall_cons_iff in Hl as [Hz Hl].
  cbn [filter]. rewrite (IH Hall Hl).
  destruct (tie ltk v (key z)) eqn:E; [| reflexivity].
  apply andb_prop in E as [E1 E2]. apply negb_true_iff in E1, E2.
  assert (Hxz : ltk (key x) (key z) = false)
    by (apply (ltk_negtrans (key x) v (key z)); auto).
  assert (Hxy' : ltk (key x) (key y) = false)
    by (apply (ltk_negtrans (key x) (key z) (key y)); auto).
  unfold lt in Hxy. congruence.
Qed.

Lemma filter_tie_insert (v : K) (x : A) (l : list A) :
  ordered v -> ordered (key x) ->
  all_ordered key ordered l -> ascending key ltk l ->
  filter (fun a => tie ltk v (key a)) (insert lt x l)
  = filter (fun a => tie ltk v (key a)) l
    ++ (if tie ltk v (key x) then [x] else []).
Proof.
  intros Hv Hx Hl Hs. induction l as [| y l IH]; simpl.
  - now destruct (tie ltk v (key x)).
  - destruct (lt x y) eqn:E.
    + cbn [filter]. destruct (tie ltk v (key x)) eqn:Et.
      * pose proof (filter_tie_behind v x y l Hv Hx Hl Hs E Et) as Hb.
        cbn [filter] in Hb. now rewrite Hb.
      * now rewrite app_nil_r.
    + cbn [filter].
      apply StronglySorted_inv in Hs as [Hs _].
      apply Forall_cons_iff in Hl as [_ Hl].
      rewrite (IH Hl Hs). now destruct (tie ltk v (key y)).
Qed.

(** Items that tie come out of [isort] in reversed order. *)
Lemma filter_tie_isort (v : K) (l : list A) :
  ordered v -> all_ordered key ordered l ->
  filter (fun a => tie ltk v (key a)) (isort key ltk l)
  = rev (filter (fun a => tie ltk v (key a)) l).
Proof.
  intros Hv. induction l as [| x l IH]; intros Hl; [reflexivity |].
  apply Forall_cons_iff in Hl as [Hx Hl]. rewrite isort_cons.
  rewrite filter_tie_insert;
    auto using isort_all_ordered, isort_ascending.
  rewrite (IH Hl). cbn [filter].
  destruct (tie ltk v (key x)); simpl; [reflexivity | apply app_nil_r].
Qed.

Lemma strongly_sorted_app (R : A -> A -> Prop) (l1 l2 : list A) :
  StronglySorted R l1 -> StronglySorted R l2 ->
  (forall a b, In a l1 -> In b l2 -> R a b) ->
  StronglySorted R (l1 ++ l2).
Proof.
  intros H1 H2 H12. induction H1 as [| a l1 H1 IH Ha]; simpl; [exact H2 |].
  constructor.
  - apply IH. intros; apply H12; simpl; auto.
  - apply Forall_app. split; [exact Ha |].
    apply Forall_forall. intros b Hb. apply H12; simpl; auto.
Qed.

Lemma ascending_rev (l : list A) :
  ascending key ltk l -> descending key ltk (rev l).
Proof.
  intros H. induction H as [| a l H IH Ha]; simpl; [constructor |].
  apply strongly_sorted_app; [exact IH | repeat constructor |].
  intros b c Hb [<- | []]. apply in_rev in Hb.
  rewrite Forall_forall in Ha. now apply Ha.
Qed.

Lemma sort_reverse_isort (l : list A) :
  sort_reverse key ltk l = rev (isort key ltk l).
Proof. unfold sort_reverse. now rewrite <- stable_sort_rev. Qed.

Lemma sort_reverse_perm (l : list A) : Permutation l (sort_reverse key ltk l).
Proof.
  rewrite sort_reverse_isort, <- Permutation_rev. apply isort_perm.
Qed.

Lemma sort_reverse_descending (l : list A) :
  all_ordered key ordered l -> descending key ltk (sort_reverse key ltk l).
Proof.
  intros H. rewrite sort_reverse_isort.
  now apply ascending_rev, isort_ascending.
Qed.

Lemma sort_reverse_stable (v : K) (l : list A) :
  ordered v -> all_ordered key ordered l ->
  filter (fun a => tie ltk v (key a)) (sort_reverse key ltk l)
  = filter (fun a => tie ltk v (key a)) l.
Proof.
  intros Hv Hl.
  rewrite sort_reverse_isort, filter_rev, filter_tie_isort by assumption.
  apply rev_involutive.
Qed.
End SortFacts.

(** ** The order of floats *)

Lemma SFcompare_rank (f g : spec_float) :
  is_nan f = false -> is_nan g = false ->
  SFcompare f g = Some (lex3 (float_rank f) (float_rank g)).
Proof.
  destruct f as [s | s | | s m e], g as [t | t | | t n e'];
    try discriminate; intros _ _;
    try (destruct s; reflexivity);
    try (destruct t; reflexivity);
    try (destruct s, t; reflexivity).
  destruct s, t; try reflexivity; cbn [SFcompare float_rank lex3].
  rewrite Z.compare_opp, (Z.compare_antisym e e').
  now destruct (e ?= e').
Qed.

Lemma lex3_lt (a b : Z * Z * Z) :
  lex3 a b = Lt <->
  let '(a1, a2, a3) := a in
  let '(b1, b2, b3) := b in
  a1 < b1 \/ (a1 = b1 /\ (a2 < b2 \/ (a2 = b2 /\ a3 < b3))).
Proof.
  destruct a as [[a1 a2] a3], b as [[b1 b2] b3]. unfold lex3.
  destruct (Z.compare_spec a1 b1); [| split; [lia | reflexivity]
                                    | split; [discriminate | lia]].
  destruct (Z.compare_spec a2 b2); [| split; [lia | reflexivity]
                                    | split; [discriminate | lia]].
  destruct (Z.compare_spec a3 b3); split; try discriminate; try reflexivity; lia.
Qed.

Lemma lex3_antisym (a b : Z * Z * Z) : lex3 b a = CompOpp (lex3 a b).
Proof.
  destruct a as [[a1 a2] a3], b as [[b1 b2] b3]. unfold lex3.
  rewrite (Z.compare_antisym a1 b1), (Z.compare_antisym a2 b2),
    (Z.compare_antisym a3 b3).
  destruct (a1 ?= b1), (a2 ?= b2), (a3 ?= b3); reflexivity.
Qed.

Lemma lex3_negtrans (a b c : Z * Z * Z) :
  lex3 a b <> Lt -> lex3 b c <> Lt -> lex3 a c <> Lt.
Proof.
  rewrite !lex3_lt.
  destruct a as [[a1 a2] a3], b as [[b1 b2] b3], c as [[c1 c2] c3]. lia.
Qed.

Lemma float_score_compare (v w : pynum) :
  float_score v = true -> float_score w = true ->
  exists f g, v = PFloat f /\ w = PFloat g
              /\ py_compare v w = Some (lex3 (float_rank f) (float_rank g)).
Proof.
  destruct v as [| f], w as [| g]; try discriminate. simpl.
  intros Hf Hg. apply negb_true_iff in Hf, Hg.
  exists f, g. now rewrite SFcompare_rank.
Qed.

Lemma py_lt_asym (v w : pynum) :
  float_score v = true -> float_score w = true ->
  py_lt v w = true -> py_lt w v = false.
Proof.
  intros Hv Hw.
  destruct (float_score_compare v w Hv Hw) as (f & g & -> & -> & E).
  destruct (float_score_compare _ _ Hw Hv) as (g' & f' & Eg & Ef & E').
  injection Eg as <-. injection Ef as <-.
  unfold py_lt. rewrite E, E', (lex3_antisym (float_rank f) (float_rank g)).
  now destruct (lex3 (float_rank f) (float_rank g)).
Qed.

Lemma py_lt_negtrans (u v w : pynum) :
  float_score u = true -> float_score v = true -> float_score w = true ->
  py_lt u v = false -> py_lt v w = false -> py_lt u w = false.
Proof.
  intros Hu Hv Hw.
  destruct (float_score_compare u v Hu Hv) as (f & g & -> & -> & E1).
  destruct (float_score_compare _ _ Hv Hw) as (g' & h & Eg & -> & E2).
  injection Eg as <-.
  destruct (float_score_compare _ _ Hu Hw) as (f' & h' & Ef & Eh & E3).
  injection Ef as <-. injection Eh as <-.
  unfold py_lt. rewrite E1, E2, E3. intros H1 H2.
  pose proof (lex3_negtrans (float_rank f) (float_rank g) (float_rank h)) as T.
  destruct (lex3 (float_rank f) (float_rank h)); try reflexivity.
  exfalso. apply T; [| | reflexivity].
  - now destruct (lex3 (float_rank f) (float_rank g)).
  - now destruct (lex3 (float_rank g) (float_rank h)).
Qed.

(** Scores tie exactly when they are equal as numbers. *)
Lemma tie_py_eq (v w : pynum) :
  float_score v = true -> float_score w = true ->
  tie py_lt v w = py_eq v w.
Proof.
  intros Hv Hw.
  destruct (float_score_compare v w Hv Hw) as (f & g & -> & -> & E).
  destruct (float_score_compare _ _ Hw Hv) as (g' & f' & Eg & Ef & E').
  injection Eg as <-. injection Ef as <-.
  unfold tie, py_lt, py_eq.
  rewrite E, E', (lex3_antisym (float_rank f) (float_rank g)).
  now destruct (lex3 (float_rank f) (float_rank g)).
Qed.

Lemma tie_sym {K} (ltk : K -> K -> bool) (v w : K) :
  tie ltk v w = tie ltk w v.
Proof. unfold tie. apply andb_comm. Qed.

Lemma py_lt_false_ge (v w : pynum) :
  float_score v = true -> float_score w = true ->
  py_lt v w = false -> py_ge v w = true.
Proof.
  intros Hv Hw.
  destruct (float_score_compare v w Hv Hw) as (f & g & -> & -> & E).
  unfold py_lt, py_ge. rewrite E.
  now destruct (lex3 (float_rank f) (float_rank g)).
Qed.

(** ** Scores are floats *)

Lemma py_truediv_float (x y v : pynum) :
  py_truediv x y = Ok v -> exists f, v = PFloat f.
Proof.
  unfold py_truediv, rbind.
  destruct x as [a | f], y as [b | g]; simpl;
    repeat match goal with
           | |- context [match ?r with Ok _ => _ | Raise _ => _ end] => destruct r
           | |- context [if ?b then _ else _] => destruct b
           end; intros H; inversion H; eauto.
Qed.

Lemma opportunity_score_float (kd : KeywordMetric.t) (v : pynum) :
  _calculate_opportunity_score kd = Ok v -> exists f, v = PFloat f.
Proof.
  unfold _calculate_opportunity_score, rbind.
  destruct (py_truediv _ (PInt 200)) as [q |]; [| discriminate].
  destruct (py_truediv _ (PInt 2)) as [h |] eqn:Eh; [| discriminate].
  apply py_truediv_float in Eh as [h' ->].
  unfold py_sub, rbind. cbn [to_float].
  destruct (int_to_float 50) as [c |]; [| discriminate].
  unfold py_add, rbind.
  destruct (py_min (PInt 50) q) as [a | f]; cbn [to_float].
  - destruct (int_to_float a); [| discriminate].
    intros H; inversion H. simpl. eauto.
  - intros H; inversion H. simpl. eauto.
Qed.

Lemma enrich_keywords_scores (results : list KeywordMetric.t)
  (enriched : list EnrichedKeyword.t) :
  enrich_keywords results = Ok enriched ->
  Forall (fun e => exists f, EnrichedKeyword.opportunity_score e = PFloat f)
         enriched
  /\ length enriched = length results.
Proof.
  revert enriched. induction results as [| kd rs IH]; intros enriched; simpl.
  - intros H; inversion H. split; [constructor | reflexivity].
  - unfold rbind at 1.
    destruct (_format_keyword_analytics kd) as [e |] eqn:Ee; [| discriminate].
    unfold rbind.
    destruct (enrich_keywords rs) as [es |]; [| discriminate].
    intros H; inversion H; subst. destruct (IH es eq_refl) as [IH1 IH2].
    split; [| simpl; congruence].
    constructor; [| exact IH1].
    unfold _format_keyword_analytics, rbind in Ee.
    destruct (_calculate_opportunity_score kd) as [v |] eqn:Ev; [| discriminate].
    inversion Ee; subst; simpl.
    exact (opportunity_score_float kd v Ev).
Qed.

(** ** Integer metrics never score NaN *)

Lemma shr_1_nonneg (mrs : shr_record) :
  0 <= shr_m mrs -> 0 <= shr_m (shr_1 mrs).
Proof.
  destruct mrs as [m r s]. destruct m as [| p | p]; simpl; try lia;
    destruct p; simpl; lia.
Qed.

Lemma iter_shr_1_nonneg (n : positive) (mrs : shr_record) :
  0 <= shr_m mrs -> 0 <= shr_m (iter_pos shr_1 n mrs).
Proof.
  revert mrs. induction n as [n IH | n IH |]; intros mrs H; simpl.
  - apply IH, IH. now apply shr_1_nonneg.
  - now apply IH, IH.
  - now apply shr_1_nonneg.
Qed.

Lemma shr_fexp_nonneg (m e : Z) (l : location) :
  0 <= m -> 0 <= shr_m (fst (shr_fexp prec emax m e l)).
Proof.
  intros H. unfold shr_fexp, shr.
  assert (H0 : 0 <= shr_m (shr_record_of_loc m l))
    by (destruct l as [| []]; exact H).
  destruct (fexp prec emax (Zdigits2 m + e) - e); simpl; auto.
  now apply iter_shr_1_nonneg.
Qed.

Lemma round_nearest_even_nonneg (m : Z) (l : location) :
  0 <= m -> 0 <= round_nearest_even m l.
Proof.
  intros H. destruct l as [| []]; simpl; try lia.
  destruct (Z.even m); lia.
Qed.

Lemma binary_round_aux_not_nan (s : bool) (m e : Z) (l : location) :
  0 <= m -> is_nan (binary_round_aux prec emax s m e l) = false.
Proof.
  intros H. unfold binary_round_aux.
  pose proof (shr_fexp_nonneg m e l H) as H1.
  destruct (shr_fexp prec emax m e l) as [mrs' e']. simpl fst in H1.
  pose proof (shr_fexp_nonneg _ e' loc_Exact
                (round_nearest_even_nonneg _ (loc_of_shr_record mrs') H1)) as H2.
  destruct (shr_fexp prec emax _ e' loc_Exact) as [mrs'' e'']. simpl fst in H2.
  destruct (shr_m mrs'') as [| p | p]; try reflexivity.
  - now destruct (e'' <=? emax - prec).
  - lia.
Qed.

Lemma binary_normalize_not_nan (m e : Z) (sz : bool) :
  is_nan (binary_normalize prec emax m e sz) = false.
Proof.
  destruct m as [| p | p]; simpl; [reflexivity | |];
    unfold binary_round;
    destruct (shl_align _ _ _) as [mz ez];
    apply binary_round_aux_not_nan; lia.
Qed.

Lemma SFdiv_finite_not_nan (s1 s2 : bool) (m1 m2 : positive) (e1 e2 : Z) :
  is_nan (SFdiv prec emax (S754_finite s1 m1 e1) (S754_finite s2 m2 e2)) = false.
Proof.
  unfold SFdiv, SFdiv_core_binary.
  set (s := e1 - e2 - _).
  set (m' := match s with Z.pos _ => Z.shiftl (Z.pos m1) s | 0 => Z.pos m1
                     | Z.neg _ => 0 end).
  assert (Hm : 0 <= m').
  { subst m'. destruct s; try lia. apply Z.shiftl_nonneg. lia. }
  pose proof (Z.div_pos m' (Zpos m2) Hm eq_refl) as Hq.
  unfold Z.div in Hq. destruct (Z.div_eucl m' (Z.pos m2)) as [q r].
  simpl fst in Hq. now apply binary_round_aux_not_nan.
Qed.

Lemma nearest_quotient_not_nan (a b : Z) :
  b <> 0 -> is_nan (nearest_quotient a b) = false.
Proof.
  intros Hb. unfold nearest_quotient.
  destruct a; [reflexivity | |]; apply SFdiv_finite_not_nan.
Qed.

Lemma not_infinity_not_nan (f : spec_float) :
  is_infinity f = false -> is_nan f = false -> finite_or_zero f = true.
Proof. now destruct f. Qed.

Lemma SFsub_not_nan (f g : spec_float) :
  finite_or_zero f = true -> finite_or_zero g = true ->
  is_nan (SFsub prec emax f g) = false.
Proof.
  destruct f as [s | | | s m e], g as [t | | | t n e']; try discriminate;
    intros _ _; simpl.
  - now destruct s, t.
  - reflexivity.
  - reflexivity.
  - apply binary_normalize_not_nan.
Qed.

Lemma SFadd_not_nan (f g : spec_float) :
  finite_or_zero f = true -> is_nan g = false ->
  is_nan (SFadd prec emax f g) = false.
Proof.
  destruct f as [s | | | s m e], g as [t | t | | t n e']; try discriminate;
    intros _ _; simpl; try reflexivity.
  - now destruct s, t.
  - apply binary_normalize_not_nan.
Qed.

Lemma float_round_not_nan (f : spec_float) (ndigits : Z) :
  0 <= ndigits ->
  is_nan f = false -> is_nan (float_round f ndigits) = false.
Proof.
  intros Hn.
  destruct f as [s | s | | s m e]; try discriminate; intros _; simpl;
    try reflexivity.
  destruct (0 <=? e); [reflexivity |].
  destruct (_ =? 0); [reflexivity |].
  apply nearest_quotient_not_nan.
  apply Z.pow_nonzero; lia.
Qed.

Lemma int_true_divide_finite (a b : Z) (q : spec_float) :
  int_true_divide a b = Ok q -> finite_or_zero q = true.
Proof.
  unfold int_true_divide. destruct (Z.eqb_spec b 0) as [| Hb]; [discriminate |].
  destruct (is_infinity (nearest_quotient a b)) eqn:E; [discriminate |].
  intros H; inversion H; subst.
  apply not_infinity_not_nan; [exact E | now apply nearest_quotient_not_nan].
Qed.

Lemma int_to_float_finite (z : Z) (f : spec_float) :
  int_to_float z = Ok f -> finite_or_zero f = true.
Proof.
  unfold int_to_float.
  destruct (is_infinity (float_of_Z z)) eqn:E; [discriminate |].
  intros H; inversion H; subst.
  apply not_infinity_not_nan; [exact E | apply binary_normalize_not_nan].
Qed.

Lemma get_or_0_integer (v : option pynum) :
  match v with None | Some (PInt _) => true | _ => false end = true ->
  exists z, get_or_0 v = PInt z.
Proof.
  destruct v as [[z | f] |]; try discriminate; intros _.
  - exists z. apply get_or_0_int.
  - now exists 0.
Qed.

Lemma opportunity_score_integer (kd : KeywordMetric.t) (v : pynum) :
  integer_metric kd = true ->
  _calculate_opportunity_score kd = Ok v ->
  float_score v = true.
Proof.
  unfold integer_metric, _calculate_opportunity_score. intros Hi.
  destruct (get_or_0_integer (KeywordMetric.search_volume kd)) as [sv ->];
    [now destruct (KeywordMetric.search_volume kd) as [[] |] |].
  destruct (get_or_0_integer (KeywordMetric.competition_index kd)) as [ci ->];
    [destruct (KeywordMetric.search_volume kd) as [[] |];
     now destruct (KeywordMetric.competition_index kd) as [[] |] |].
  clear Hi. unfold py_truediv, rbind.
  destruct (int_true_divide sv 200) as [q |] eqn:Eq; [| discriminate].
  destruct (int_true_divide ci 2) as [h |] eqn:Eh; [| discriminate].
  apply int_true_divide_finite in Eq, Eh.
  unfold py_sub, rbind. cbn [to_float].
  destruct (int_to_float 50) as [c |] eqn:Ec; [| discriminate].
  pose proof (int_to_float_finite _ _ Ec) as Hc.
  pose proof (SFsub_not_nan c h Hc Eh) as Hcomp.
  unfold py_add, rbind, py_min.
  destruct (py_lt (PFloat q) (PInt 50)); cbn [to_float].
  - intros H; inversion H; subst. simpl. apply negb_true_iff.
    apply float_round_not_nan; [lia |]. now apply SFadd_not_nan.
  - rewrite Ec. intros H; inversion H; subst. simpl. apply negb_true_iff.
    apply float_round_not_nan; [lia |]. now apply SFadd_not_nan.
Qed.

Lemma enrich_keywords_integer (results : list KeywordMetric.t)
  (enriched : list EnrichedKeyword.t) :
  forallb integer_metric results = true ->
  enrich_keywords results = Ok enriched ->
  no_nan_scores enriched = true.
Proof.
  revert enriched. induction results as [| kd rs IH]; intros enriched; simpl.
  - intros _ H; inversion H. reflexivity.
  - intros Hi. apply andb_prop in Hi as [Hkd Hrs]. unfold rbind at 1.
    destruct (_format_keyword_analytics kd) as [e |] eqn:Ee; [| discriminate].
    unfold rbind.
    destruct (enrich_keywords rs) as [es |]; [| discriminate].
    intros H; inversion H; subst. simpl. rewrite (IH es Hrs eq_refl).
    unfold _format_keyword_analytics, rbind in Ee.
    destruct (_calculate_opportunity_score kd) as [v |] eqn:Ev; [| discriminate].
    inversion Ee; subst. unfold score; simpl.
    pose proof (opportunity_score_integer kd v Hkd Ev) as Hv.
    destruct v as [| []]; try discriminate; reflexivity.
Qed.

(** ** Running a computation *)

Lemma bind_inv_ok {A B} (m : io A) (k : A -> io B) (tr : list event) (b : B) :
  bind m k = (tr, Ok b) ->
  exists tr1 a tr2, m = (tr1, Ok a) /\ k a = (tr2, Ok b) /\ tr = tr1 ++ tr2.
Proof.
  destruct m as [tr1 [a | e]]; simpl; [| discriminate].
  destruct (k a) as [tr2 r] eqn:E. intros H; inversion H; subst.
  now exists tr1, a, tr2.
Qed.

Lemma bind_ok {A B} (m : io A) (k : A -> io B) tr1 a tr2 (r : result B) :
  m = (tr1, Ok a) -> k a = (tr2, r) -> bind m k = (tr1 ++ tr2, r).
Proof. intros -> H. simpl. now rewrite H. Qed.

Lemma bind_raise {A B} (m : io A) (k : A -> io B) tr e :
  m = (tr, Raise e) -> bind m k = (tr, Raise e).
Proof. now intros ->. Qed.

Lemma lift_inv_ok {A} (r : result A) (tr : list event) (a : A) :
  lift r = (tr, Ok a) -> r = Ok a /\ tr = [].
Proof. unfold lift. intros H; inversion H. auto. Qed.

Lemma ret_inv {A} (a b : A) (tr : list event) :
  ret a = (tr, Ok b) -> a = b /\ tr = [].
Proof. unfold ret. intros H; inversion H. auto. Qed.

(** ** The enhanced analysis *)

(** What stands behind an enhanced result. *)
Lemma create_enhanced_analysis_inv (self : SEOAnalyzer) (ai keywords : pyval)
  (tr : list event) (w : pyval) (es top : list EnrichedKeyword.t)
  (sm : SummaryMetrics) (b : bool) :
  _create_enhanced_analysis self ai keywords
  = (tr, Ok (EnhancedResult w es top sm b)) ->
  exists tr0 data results enriched,
    fetch_search_volume_data self keywords 2840 (str "2021-08-01")
    = (tr0, Ok (Some data))
    /\ first_task_result data = Ok (Some results)
    /\ results <> []
    /\ enrich_keywords results = Ok enriched
    /\ es = sort_by_opportunity enriched
    /\ top = firstn 5 es
    /\ summary_metrics es = Ok sm
    /\ w = ai /\ b = true.
Proof.
  unfold _create_enhanced_analysis. intros H.
  apply bind_inv_ok in H as (tr0 & svd & tr1 & F & H & ->).
  apply bind_inv_ok in H as (tr2 & available & tr3 & Av & H & ->).
  destruct available as [results |].
  2:{ apply bind_inv_ok in H as (? & ? & ? & _ & H & _).
      apply ret_inv in H as [H _]. discriminate. }
  apply bind_inv_ok in H as (tr4 & enriched & tr5 & E & H & ->).
  apply lift_inv_ok in E as [E ->].
  apply bind_inv_ok in H as (tr6 & u & tr7 & _ & H & ->).
  apply bind_inv_ok in H as (tr8 & m & tr9 & S & H & ->).
  apply lift_inv_ok in S as [S ->].
  apply ret_inv in H as [H ->]. inversion H; subst.
  destruct svd as [data |].
  2:{ apply ret_inv in Av as [Av _]. discriminate. }
  apply bind_inv_ok in Av as (tra & res & trb & R & Av & ->).
  apply lift_inv_ok in R as [R ->].
  exists tr0, data, results, enriched.
  destruct res as [[| r rs] |]; apply ret_inv in Av as [Av _];
    try discriminate.
  inversion Av; subst.
  repeat split; auto. discriminate.
Qed.

Lemma strongly_sorted_weaken {A} (R R' : A -> A -> Prop) (l : list A) :
  (forall a b, In a l -> In b l -> R a b -> R' a b) ->
  StronglySorted R l -> StronglySorted R' l.
Proof.
  intros HR H. induction H as [| a l H IH Ha]; constructor.
  - apply IH. intros; apply HR; simpl; auto.
  - rewrite Forall_forall in Ha |- *. intros b Hb.
    apply HR; simpl; auto.
Qed.

Lemma filter_none {A} (p : A -> bool) (l : list A) :
  (forall a, p a = false) -> filter p l = [].
Proof.
  intros H. induction l as [| a l IH]; simpl; [reflexivity |].
  now rewrite H.
Qed.

Lemma py_eq_nan (v : pynum) : py_eq v (PFloat S754_nan) = false.
Proof.
  unfold py_eq. destruct v as [z | f]; simpl; [reflexivity |].
  now destruct f.
Qed.

Lemma scores_ordered (results : list KeywordMetric.t)
  (enriched : list EnrichedKeyword.t) :
  enrich_keywords results = Ok enriched ->
  no_nan_scores enriched = true ->
  all_ordered score (fun v => float_score v = true) enriched.
Proof.
  intros E N. apply enrich_keywords_scores in E as [E _].
  unfold no_nan_scores in N. rewrite forallb_forall in N.
  unfold all_ordered. rewrite Forall_forall in E |- *.
  intros e He. destruct (E e He) as [f Hf]. specialize (N e He).
  unfold score in *. rewrite Hf in *. now destruct f.
Qed.

(** C5.  When the enhanced analysis returns, its keyword list is the list
    of formatted provider records, in response order, sorted by
    opportunity score: it is a permutation of that list; unless a score is
    NaN, no record has a smaller score than a later one, and the records
    of any one score stand in response order; [top_recommendations] is
    the first [min(5, length)] records of the sorted list.  No score is
    NaN when search volumes and competition indexes are integers. *)
Theorem ranking_spec (self : SEOAnalyzer) (ai keywords : pyval)
  (tr : list event) (w : pyval) (es top : list EnrichedKeyword.t)
  (sm : SummaryMetrics) (b : bool) :
  _create_enhanced_analysis self ai keywords
  = (tr, Ok (EnhancedResult w es top sm b)) ->
  exists tr0 data results enriched,
    fetch_search_volume_data self keywords 2840 (str "2021-08-01")
    = (tr0, Ok (Some data))
    /\ first_task_result data = Ok (Some results)
    /\ enrich_keywords results = Ok enriched
    /\ es = list_sort EnrichedKeyword.opportunity_score true enriched
    /\ Permutation enriched es
    /\ (no_nan_scores enriched = true ->
        StronglySorted (fun e1 e2 => py_ge (score e1) (score e2) = true) es
        /\ forall f : spec_float,
             filter (fun e => py_eq (score e) (PFloat f)) es
             = filter (fun e => py_eq (score e) (PFloat f)) enriched)
    /\ (forallb integer_metric results = true -> no_nan_scores enriched = true)
    /\ top = firstn 5 es
    /\ length top = Nat.min 5 (length results).
Proof.
  intros H.
  apply create_enhanced_analysis_inv in H
    as (tr0 & data & results & enriched & F & R & _ & E & -> & -> & _ & _ & _).
  exists tr0, data, results, enriched.
  pose proof (sort_reverse_perm score py_lt enriched) as P.
  change (sort_reverse score py_lt enriched)
    with (sort_by_opportunity enriched) in P.
  repeat (split; [assumption || reflexivity |]).
  split; [| split; [| split; [reflexivity |]]].
  2:{ intros Hi. exact (enrich_keywords_integer results enriched Hi E). }
  - intros N. pose proof (scores_ordered results enriched E N) as O.
    assert (O' : all_ordered score (fun v => float_score v = true)
                   (sort_by_opportunity enriched))
      by exact (Permutation_Forall P O).
    split.
    + pose proof (sort_reverse_descending score py_lt
                    (fun v => float_score v = true)
                    py_lt_asym py_lt_negtrans enriched O) as D.
      change (sort_reverse score py_lt enriched)
        with (sort_by_opportunity enriched) in D.
      unfold all_ordered in O'. rewrite Forall_forall in O'.
      revert D. apply strongly_sorted_weaken.
      intros e1 e2 H1 H2. apply py_lt_false_ge; auto.
    + intros f. destruct (is_nan f) eqn:Nf.
      * destruct f; try discriminate.
        rewrite !filter_none; auto using py_eq_nan.
      * assert (Hf : float_score (PFloat f) = true) by (simpl; now rewrite Nf).
        pose proof (sort_reverse_stable score py_lt
                      (fun v => float_score v = true)
                      py_lt_asym py_lt_negtrans (PFloat f) enriched Hf O) as S.
        change (sort_reverse score py_lt enriched)
          with (sort_by_opportunity enriched) in S.
        unfold all_ordered in O, O'. rewrite Forall_forall in O, O'.
        rewrite (filter_ext_in (fun e => py_eq (score e) (PFloat f))
                               (fun e => tie py_lt (PFloat f) (score e))
                               (sort_by_opportunity enriched)).
        2:{ intros e He. rewrite tie_sym, tie_py_eq; auto. }
        rewrite S. apply filter_ext_in.
        intros e He. rewrite tie_sym, tie_py_eq; auto.
  - rewrite length_firstn. f_equal.
    rewrite <- (Permutation_length P).
    now apply enrich_keywords_scores in E as [_ E].
Qed.

Lemma ranking_spec_witness :
  exists tr es top sm,
    _create_enhanced_analysis demo_analyzer demo_analysis demo_keywords
    = (tr, Ok (EnhancedResult demo_analysis es top sm true))
    /\ map EnrichedKeyword.keyword es
       = [ Some (str "running shoes"); Some (str "trail shoes");
           Some (str "hiking boots") ]
    /\ top = firstn 5 es
    /\ StronglySorted (fun e1 e2 => py_ge (score e1) (score e2) = true) es.
Proof.
  eexists. eexists. eexists. eexists.
  match goal with
  | |- ?H /\ _ => assert (Hrun : H) by (vm_compute; reflexivity)
  end.
  split; [exact Hrun |]. split; [vm_compute; reflexivity |].
  destruct (ranking_spec _ _ _ _ _ _ _ _ _ Hrun)
    as (tr0 & data & results & enriched & F & R & E & _ & _ & S & I & T & _).
  split; [exact T |].
  vm_compute in F. injection F as _ <-.
  vm_compute in R. injection R as <-.
  exact (proj1 (S (I eq_refl))).
Defined.

(** ** Summary metrics *)

Lemma py_sum_ints_from (zs : list Z) (a : Z) :
  fold_left (fun acc x => (v <- acc ;; py_add v x)%result)
            (map PInt zs) (Ok (PInt a))
  = Ok (PInt (a + fold_right Z.add 0 zs)).
Proof.
  revert a. induction zs as [| z zs IH]; intros a; simpl.
  - f_equal. f_equal. lia.
  - rewrite IH. f_equal. f_equal. lia.
Qed.

Lemma py_sum_ints (zs : list Z) :
  py_sum (map PInt zs) = Ok (PInt (fold_right Z.add 0 zs)).
Proof. unfold py_sum. now rewrite py_sum_ints_from. Qed.

Lemma summary_metrics_inv (es : list EnrichedKeyword.t) (sm : SummaryMetrics) :
  summary_metrics es = Ok sm ->
  exists total avg,
    py_sum (map EnrichedKeyword.search_volume es) = Ok total
    /\ match es with
       | _ :: _ =>
           exists total_cpc,
             py_sum (map EnrichedKeyword.cpc es) = Ok total_cpc
             /\ py_truediv total_cpc (PInt (Z.of_nat (length es))) = Ok avg
       | [] => avg = PInt 0
       end
    /\ sm = {| total_monthly_searches := total;
               average_cpc := py_round avg 2;
               keywords_analyzed := length es;
               high_opportunity_keywords :=
                 length (filter (fun k => py_gt (score k) (PInt 70)) es) |}.
Proof.
  unfold summary_metrics, rbind.
  destruct (py_sum (map EnrichedKeyword.search_volume es)) as [total |];
    [| discriminate].
  destruct es as [| e es'].
  - intros H; inversion H. now exists total, (PInt 0).
  - destruct (py_sum (map EnrichedKeyword.cpc (e :: es'))) as [total_cpc |];
      [| discriminate].
    destruct (py_truediv total_cpc _) as [avg |] eqn:D; [| discriminate].
    intros H; inversion H. exists total, avg. eauto.
Qed.

(** The report leaves one event, whether it completes or fails. *)
Lemma display_professional_report_run (ai : pyval)
  (es : list EnrichedKeyword.t) :
  _display_professional_report ai es
  = ([Report ai es], snd (_display_professional_report ai es)).
Proof.
  unfold _display_professional_report. cbn [emit bind lift].
  repeat match goal with
         | |- context [py_get ?a ?k ?d] => destruct (py_get a k d)
         | |- context [py_sum ?l] => destruct (py_sum l)
         | |- context [format_decimal ?x] => destruct (format_decimal x)
         | |- context [report_keywords ?l] => destruct (report_keywords l)
         end; reflexivity.
Qed.

(** The enhanced result is returned whenever the provider answers with a
    non-empty list, scoring and the summary succeed and the report can be
    printed. *)
Lemma create_enhanced_analysis_returns (self : SEOAnalyzer)
  (ai keywords : pyval) (tr0 : list event) (data : ProviderResponse.t)
  (r : KeywordMetric.t) (rs : list KeywordMetric.t)
  (enriched : list EnrichedKeyword.t) (sm : SummaryMetrics) :
  fetch_search_volume_data self keywords 2840 (str "2021-08-01")
  = (tr0, Ok (Some data)) ->
  first_task_result data = Ok (Some (r :: rs)) ->
  enrich_keywords (r :: rs) = Ok enriched ->
  snd (_display_professional_report ai (sort_by_opportunity enriched)) = Ok tt ->
  summary_metrics (sort_by_opportunity enriched) = Ok sm ->
  _create_enhanced_analysis self ai keywords
  = (tr0 ++ [Report ai (sort_by_opportunity enriched)],
     Ok (EnhancedResult ai (sort_by_opportunity enriched)
           (firstn 5 (sort_by_opportunity enriched)) sm true)).
Proof.
  intros F R E N S. unfold _create_enhanced_analysis.
  rewrite F. cbn [bind lift]. rewrite R. cbn [bind lift ret app].
  rewrite E. cbn [bind lift app].
  rewrite display_professional_report_run, N. cbn [bind lift ret app].
  now rewrite S.
Qed.

Lemma above_70_by_tenths :
  forallb (fun t => Bool.eqb (py_gt (tenths t) (PInt 70)) (700 <? t))
          (Z_range (-1000) 3001) = true.
Proof. vm_compute. reflexivity. Qed.

Lemma count_above_70 (es : list EnrichedKeyword.t) (ts : list Z) :
  map score es = map tenths ts ->
  Forall (fun t => -1000 <= t <= 2000) ts ->
  length (filter (fun e => py_gt (score e) (PInt 70)) es)
  = length (filter (fun t => 700 <? t) ts).
Proof.
  revert ts. induction es as [| e es IH]; intros [| t ts] M B;
    try discriminate; [reflexivity |].
  simpl in M. inversion M as [[Me M']]. apply Forall_cons_iff in B as [Bt B].
  simpl. rewrite Me.
  pose proof (forallb_range _ (-1000) 3001 above_70_by_tenths t ltac:(lia))
    as H.
  apply Bool.eqb_prop in H. rewrite H.
  destruct (700 <? t); simpl; now rewrite (IH ts M' B).
Qed.

(** C6.  The summary metrics of an enriched list: the total is the sum of
    the search volumes (the integer sum when they are integers), the
    average cost per click is the sum of the [cpc] values divided by the
    length and rounded to 2 decimals, the count is the length, and the
    high-opportunity count is the number of records with a score above
    70: of scores given in tenths, those above 700 tenths, so that 70.0
    does not count and 70.1 does.  On the empty list the metrics are all 0
    and nothing is raised.  An enhanced result carries the metrics of its
    keyword list. *)
Theorem summary_metrics_spec :
  (forall es sm,
      summary_metrics es = Ok sm ->
      py_sum (map EnrichedKeyword.search_volume es)
      = Ok (total_monthly_searches sm)
      /\ (forall zs, map EnrichedKeyword.search_volume es = map PInt zs ->
                     total_monthly_searches sm = PInt (fold_right Z.add 0 zs))
      /\ (es <> [] ->
          exists total_cpc mean,
            py_sum (map EnrichedKeyword.cpc es) = Ok total_cpc
            /\ py_truediv total_cpc (PInt (Z.of_nat (length es))) = Ok mean
            /\ average_cpc sm = py_round mean 2)
      /\ keywords_analyzed sm = length es
      /\ high_opportunity_keywords sm
         = length (filter (fun e => py_gt (score e) (PInt 70)) es))
  /\ summary_metrics []
     = Ok {| total_monthly_searches := PInt 0;
             average_cpc := PInt 0;
             keywords_analyzed := 0;
             high_opportunity_keywords := 0 |}
  /\ (forall self ai keywords tr w es top sm b,
         _create_enhanced_analysis self ai keywords
         = (tr, Ok (EnhancedResult w es top sm b)) ->
         summary_metrics es = Ok sm)
  /\ (forall es sm ts,
         summary_metrics es = Ok sm ->
         map score es = map tenths ts ->
         Forall (fun t => -1000 <= t <= 2000) ts ->
         high_opportunity_keywords sm
         = length (filter (fun t => 700 <? t) ts))
  /\ (forall es sm zs,
         summary_metrics es = Ok sm ->
         es <> [] ->
         map EnrichedKeyword.cpc es = map PInt zs ->
         average_cpc sm
         = PFloat (float_round
                     (nearest_quotient (fold_right Z.add 0 zs)
                                       (Z.of_nat (length es))) 2))
  /\ (summary_metrics
        [ priced 4000 (PFloat (float_lit 15 10)) (tenths 700);
          priced 4020 (PFloat (float_lit 225 100)) (tenths 701);
          priced 3980 (PFloat (float_lit 5 10)) (tenths 699) ]
      = Ok {| total_monthly_searches := PInt 12000;
              average_cpc := PFloat (float_lit 142 100);
              keywords_analyzed := 3;
              high_opportunity_keywords := 1 |}
      /\ summary_metrics
           [ priced 100 (PInt 1) (tenths 1000); priced 200 (PInt 2) (tenths 705);
             priced 300 (PInt 2) (tenths 0) ]
         = Ok {| total_monthly_searches := PInt 600;
                 average_cpc := PFloat (float_lit 167 100);
                 keywords_analyzed := 3;
                 high_opportunity_keywords := 2 |}
      /\ summary_metrics [ priced 10 (PFloat (float_lit 125 1000)) (tenths 700) ]
         = Ok {| total_monthly_searches := PInt 10;
                 average_cpc := PFloat (float_lit 12 100);
                 keywords_analyzed := 1;
                 high_opportunity_keywords := 0 |}
      /\ summary_metrics [ priced 10 (PFloat (float_lit 375 1000)) (tenths 701) ]
         = Ok {| total_monthly_searches := PInt 10;
                 average_cpc := PFloat (float_lit 38 100);
                 keywords_analyzed := 1;
                 high_opportunity_keywords := 1 |}).
Proof.
  split; [| split; [reflexivity | split; [| split; [| split]]]].
  - intros es sm H.
    apply summary_metrics_inv in H as (total & avg & T & A & ->). simpl.
    split; [exact T |]. split; [| split; [| split; reflexivity]].
    + intros zs Hzs. rewrite Hzs, py_sum_ints in T. now inversion T.
    + intros Hne. destruct es as [| e es']; [contradiction |].
      destruct A as (total_cpc & C & D). now exists total_cpc, avg.
  - intros self ai keywords tr w es top sm b H.
    now apply create_enhanced_analysis_inv in H
      as (_ & _ & _ & _ & _ & _ & _ & _ & _ & _ & S & _).
  - intros es sm ts H M B.
    apply summary_metrics_inv in H as (total & avg & _ & _ & ->). simpl.
    now apply count_above_70.
  - intros es sm zs H Hne Hz.
    apply summary_metrics_inv in H as (total & avg & _ & A & ->). simpl.
    destruct es as [| e es']; [contradiction |].
    destruct A as (total_cpc & C & D).
    rewrite Hz, py_sum_ints in C. injection C as <-.
    unfold py_truediv, rbind, int_true_divide in D.
    destruct (Z.eqb_spec (Z.of_nat (length (e :: es'))) 0) as [E | _];
      [discriminate |].
    destruct (is_infinity _); [discriminate |].
    now injection D as <-.
  - repeat split; vm_compute; reflexivity.
Qed.

Lemma summary_metrics_spec_witness :
  exists tr es top sm,
    _create_enhanced_analysis threshold_analyzer demo_analysis demo_keywords
    = (tr, Ok (EnhancedResult demo_analysis es top sm true))
    /\ map score es = map tenths [1000; 701; 700; 699]
    /\ sm = {| total_monthly_searches := PInt 32000;
               average_cpc := PFloat (float_lit 181 100);
               keywords_analyzed := 4;
               high_opportunity_keywords := 2 |}
    /\ py_sum (map EnrichedKeyword.search_volume es)
       = Ok (total_monthly_searches sm)
    /\ keywords_analyzed sm = length es
    /\ high_opportunity_keywords sm
       = length (filter (fun t => 700 <? t) [1000; 701; 700; 699]).
Proof.
  eexists. eexists. eexists. eexists.
  match goal with
  | |- ?H /\ _ => assert (Hrun : H) by (vm_compute; reflexivity)
  end.
  split; [exact Hrun |].
  split; [vm_compute; reflexivity |].
  split; [vm_compute; reflexivity |].
  destruct summary_metrics_spec as (Hall & _ & Hres & Hcount & _).
  pose proof (Hres _ _ _ _ _ _ _ _ _ Hrun) as Hsm.
  destruct (Hall _ _ Hsm) as (T & _ & _ & K & _).
  split; [exact T |]. split; [exact K |].
  apply (Hcount _ _ [1000; 701; 700; 699] Hsm).
  - vm_compute. reflexivity.
  - repeat constructor; lia.
Defined.

(** ** Cleaning and parsing the AI response *)














Lemma parse_ai_response_run (json_loads : pystr -> result pyval)
  (ai_response : pystr) :
  _parse_ai_response json_loads ai_response
  = match json_loads (clean_response ai_response) with
    | Ok v => ([], Ok v)
    | Raise e =>
        if is_JSONDecodeError e
        then ([Log ERROR MsgParseFailed], Ok fallback_analysis)
        else ([], Raise e)
    end.
Proof.
  unfold _parse_ai_response.
  destruct (json_loads (clean_response ai_response)) as [v | e];
    [reflexivity |].
  now destruct e.
Qed.




(** ** The orchestrator *)

Lemma generate_ai_insights_run (json_loads : pystr -> result pyval)
  (self : SEOAnalyzer) (website_content : pystr) :
  _generate_ai_insights json_loads self website_content
  = match chat_completions_create (openai_client self) website_content with
    | Raise e =>
        ([OpenAIRequest website_content; Log ERROR (MsgAIFailed e)], Raise e)
    | Ok ai_response =>
        match json_loads (clean_response ai_response) with
        | Ok v =>
            ([OpenAIRequest website_content; Log INFO MsgAICompleted], Ok v)
        | Raise e =>
            if is_JSONDecodeError e
            then ([OpenAIRequest website_content; Log INFO MsgAICompleted;
                   Log ERROR MsgParseFailed], Ok fallback_analysis)
            else ([OpenAIRequest website_content; Log INFO MsgAICompleted;
                   Log ERROR (MsgAIFailed e)], Raise e)
        end
    end.
Proof.
  unfold _generate_ai_insights.
  destruct (chat_completions_create (openai_client self) website_content)
    as [ai_response | e]; [| reflexivity].
  cbn [emit lift bind log]. rewrite parse_ai_response_run.
  destruct (json_loads (clean_response ai_response)) as [v | e];
    [reflexivity |].
  now destruct (is_JSONDecodeError e).
Qed.

Lemma generate_ai_insights_no_fetch (json_loads : pystr -> result pyval)
  (self : SEOAnalyzer) (website_content : pystr) tr r :
  _generate_ai_insights json_loads self website_content = (tr, r) ->
  fetch_calls tr = 0%nat /\ provider_requests tr = 0%nat.
Proof.
  rewrite generate_ai_insights_run.
  destruct (chat_completions_create _ _) as [ai_response | e].
  - destruct (json_loads _) as [v | e]; [| destruct (is_JSONDecodeError e)];
      intros H; inversion H; subst; now split.
  - intros H; inversion H; subst; now split.
Qed.

Lemma fetch_calls_app (tr1 tr2 : list event) :
  fetch_calls (tr1 ++ tr2) = (fetch_calls tr1 + fetch_calls tr2)%nat.
Proof. unfold fetch_calls. now rewrite filter_app, length_app. Qed.

Lemma provider_requests_app (tr1 tr2 : list event) :
  provider_requests (tr1 ++ tr2)
  = (provider_requests tr1 + provider_requests tr2)%nat.
Proof. unfold provider_requests. now rewrite filter_app, length_app. Qed.

(** C7.  When the insight stage returns an analysis whose keyword list is
    empty, the pipeline returns the minimal result, with empty enhanced
    keywords and recommendations, warns once, and neither enters
    [fetch_search_volume_data] nor asks the provider. *)
Theorem no_keywords_short_circuit (json_loads : pystr -> result pyval)
  (self : SEOAnalyzer) (website_content : pystr)
  (tr0 : list event) (ai_analysis keywords : pyval) :
  _generate_ai_insights json_loads self website_content = (tr0, Ok ai_analysis) ->
  analysis_keywords ai_analysis = Ok keywords ->
  truthy keywords = false ->
  generate_comprehensive_analysis json_loads self website_content
  = (tr0 ++ [Log WARNING MsgNoKeywords], Ok (MinimalResult ai_analysis [] []))
  /\ fetch_calls (tr0 ++ [Log WARNING MsgNoKeywords]) = 0%nat
  /\ provider_requests (tr0 ++ [Log WARNING MsgNoKeywords]) = 0%nat.
Proof.
  intros Hai Hk Ht.
  destruct (generate_ai_insights_no_fetch _ _ _ _ _ Hai) as [F P].
  split; [| split].
  - unfold generate_comprehensive_analysis.
    rewrite Hai. cbn [bind lift]. rewrite Hk. cbn [bind lift]. rewrite Ht.
    reflexivity.
  - now rewrite fetch_calls_app, F.
  - now rewrite provider_requests_app, P.
Qed.

Lemma no_keywords_short_circuit_witness :
  exists tr ai,
    generate_comprehensive_analysis json_loads_no_keywords demo_analyzer
      (str "We sell shoes.")
    = (tr, Ok (MinimalResult ai [] []))
    /\ fetch_calls tr = 0%nat.
Proof.
  eexists. eexists.
  destruct (no_keywords_short_circuit json_loads_no_keywords demo_analyzer
              (str "We sell shoes.") _ _ _ eq_refl eq_refl eq_refl)
    as (H & F & _).
  split; [exact H | exact F].
Defined.

(** ** Enrichment unavailable *)

Lemma fetch_never_raises (self : SEOAnalyzer) (keywords : pyval)
  (location_code : Z) (date_from : pystr) :
  exists tr r,
    fetch_search_volume_data self keywords location_code date_from = (tr, Ok r).
Proof.
  unfold fetch_search_volume_data.
  destruct (dataforseo_client self) as [client |]; [| cbn; eauto].
  destruct (py_len keywords) as [n | e]; [| cbn; eauto].
  cbn [lift bind emit log].
  destruct (post client _ _) as [response | e]; [| cbn; eauto].
  destruct (json response) as [body | e]; [| cbn; eauto].
  destruct (ProviderResponse.status_code body =? 20000); cbn; eauto.
Qed.

Lemma fetch_unavailable (self : SEOAnalyzer) (client : RestClient)
  (keywords : pyval) (location_code : Z) (date_from : pystr) :
  dataforseo_client self = Some client ->
  provider_failed client
    (search_volume_post_data keywords location_code date_from) = true ->
  exists tr,
    fetch_search_volume_data self keywords location_code date_from
    = (tr, Ok None).
Proof.
  intros Hc Hf. unfold fetch_search_volume_data. rewrite Hc.
  unfold provider_failed in Hf.
  destruct (py_len keywords) as [n | e]; [| cbn; eauto].
  cbn [lift bind emit log].
  destruct (post client _ _) as [response | e]; [| cbn; eauto].
  destruct (json response) as [body | e]; [| cbn; eauto].
  destruct (ProviderResponse.status_code body =? 20000);
    [discriminate | cbn; eauto].
Qed.

(** C8.  When the search-volume call fails (the status code is not 20000,
    the request raises or the body cannot be decoded) the enricher
    returns [None] and does not raise; the enhanced analysis and the
    pipeline then return the basic result with [enhanced_analysis] false,
    and no exception reaches the caller. *)
Theorem enrichment_unavailable_spec (self : SEOAnalyzer) (client : RestClient)
  (keywords : pyval) :
  dataforseo_client self = Some client ->
  provider_failed client
    (search_volume_post_data keywords 2840 (str "2021-08-01")) = true ->
  (exists tr,
      fetch_search_volume_data self keywords 2840 (str "2021-08-01")
      = (tr, Ok None))
  /\ (forall ai_analysis,
         exists tr,
           _create_enhanced_analysis self ai_analysis keywords
           = (tr, Ok (BasicResult ai_analysis keywords false)))
  /\ (forall json_loads website_content tr0 ai_analysis,
         _generate_ai_insights json_loads self website_content
         = (tr0, Ok ai_analysis) ->
         analysis_keywords ai_analysis = Ok keywords ->
         truthy keywords = true ->
         exists tr,
           generate_comprehensive_analysis json_loads self website_content
           = (tr, Ok (BasicResult ai_analysis keywords false))).
Proof.
  intros Hc Hf.
  destruct (fetch_unavailable self client keywords _ _ Hc Hf) as [trf F].
  assert (Hcreate : forall ai_analysis,
             _create_enhanced_analysis self ai_analysis keywords
             = (trf ++ [Log WARNING MsgVolumeUnavailable],
                Ok (BasicResult ai_analysis keywords false))).
  { intros ai. unfold _create_enhanced_analysis. now rewrite F. }
  split; [eauto |]. split; [eauto |].
  intros json_loads content tr0 ai Hai Hk Ht.
  unfold generate_comprehensive_analysis.
  rewrite Hai. cbn [bind lift]. rewrite Hk. cbn [bind lift]. rewrite Ht, Hc.
  cbn [negb]. rewrite Hcreate. cbn. eauto.
Qed.

Lemma enrichment_unavailable_spec_witness :
  exists tr,
    generate_comprehensive_analysis json_loads_demo failing_analyzer
      (str "We sell shoes.")
    = (tr, Ok (BasicResult demo_analysis demo_keywords false)).
Proof.
  destruct (enrichment_unavailable_spec failing_analyzer _ demo_keywords
              eq_refl eq_refl) as (_ & _ & H).
  exact (H json_loads_demo (str "We sell shoes.") _ demo_analysis
           eq_refl eq_refl eq_refl).
Defined.

(** * Further properties *)

(** ** The search-volume fetch, case by case *)

Lemma fetch_run (self : SEOAnalyzer) (keywords : pyval)
  (location_code : Z) (date_from : pystr) :
  fetch_search_volume_data self keywords location_code date_from
  = match dataforseo_client self with
    | None =>
        ([FetchCall keywords; Log WARNING MsgClientNotAvailable], Ok None)
    | Some client =>
        let post_data := search_volume_post_data keywords location_code date_from in
        match py_len keywords with
        | Raise e =>
            ([FetchCall keywords; Log ERROR (MsgFetchFailed e)], Ok None)
        | Ok n =>
            let asked := [FetchCall keywords; Log INFO (MsgFetching n);
                          ProviderRequest search_volume_path post_data] in
            match post client search_volume_path post_data with
            | Raise e => (asked ++ [Log ERROR (MsgFetchFailed e)], Ok None)
            | Ok response =>
                match json response with
                | Raise e => (asked ++ [Log ERROR (MsgFetchFailed e)], Ok None)
                | Ok body =>
                    if ProviderResponse.status_code body =? 20000
                    then (asked ++ [Log INFO MsgRetrieved], Ok (Some body))
                    else (asked ++ [Log ERROR
                                      (MsgApiError
                                         (ProviderResponse.status_code body)
                                         (ProviderResponse.status_message body))],
                          Ok None)
                end
            end
        end
    end.
Proof.
  unfold fetch_search_volume_data.
  destruct (dataforseo_client self) as [client |]; [| reflexivity].
  destruct (py_len keywords) as [n | e]; [| reflexivity].
  cbn [lift bind emit log].
  destruct (post client _ _) as [response | e]; [| reflexivity].
  destruct (json response) as [body | e]; [| reflexivity].
  now destruct (ProviderResponse.status_code body =? 20000).
Qed.

(** Membership in a short, explicit trace. *)
Ltac in_trace H :=
  simpl in H;
  repeat (destruct H as [H | H]; [try discriminate; try (inversion H; now auto) |]);
  try contradiction.

(** X1.  [fetch_search_volume_data] never raises, whatever the analyzer,
    the keywords and the provider do: its outcome is a returned value. *)
Theorem fetch_returns (self : SEOAnalyzer) (keywords : pyval)
  (location_code : Z) (date_from : pystr) :
  exists r,
    outcome (fetch_search_volume_data self keywords location_code date_from)
    = Ok r.
Proof.
  rewrite fetch_run.
  destruct (dataforseo_client self) as [client |]; [| cbn; eauto].
  destruct (py_len keywords) as [n | e]; [| cbn; eauto]. cbv zeta.
  destruct (post client _ _) as [response | e]; [| cbn; eauto].
  destruct (json response) as [body | e]; [| cbn; eauto].
  destruct (ProviderResponse.status_code body =? 20000); cbn; eauto.
Qed.

(** X2.  One call of [fetch_search_volume_data] asks the provider at most
    once, and what it sends is the search-volume path with a single task
    that carries the whole keyword list, the location, the start date and
    [search_partners = True]. *)
Theorem fetch_one_batched_request (self : SEOAnalyzer) (keywords : pyval)
  (location_code : Z) (date_from : pystr) :
  let tr := trace (fetch_search_volume_data self keywords location_code date_from) in
  fetch_calls tr = 1%nat
  /\ (provider_requests tr <= 1)%nat
  /\ forall path post_data,
       In (ProviderRequest path post_data) tr ->
       path = search_volume_path
       /\ post_data
          = [ (0, {| location_code := location_code;
                     keywords := keywords;
                     date_from := date_from;
                     search_partners := true |}) ].
Proof.
  rewrite fetch_run.
  destruct (dataforseo_client self) as [client |];
    [| cbn; split; [reflexivity | split; [lia | intros p d H; in_trace H]]].
  destruct (py_len keywords) as [n | e];
    [| cbn; split; [reflexivity | split; [lia | intros p d H; in_trace H]]].
  cbv zeta.
  destruct (post client _ _) as [response | e];
    [| cbn; split; [reflexivity | split; [lia | intros p d H; in_trace H]]].
  destruct (json response) as [body | e];
    [| cbn; split; [reflexivity | split; [lia | intros p d H; in_trace H]]].
  destruct (ProviderResponse.status_code body =? 20000);
    cbn; (split; [reflexivity | split; [lia | intros p d H; in_trace H]]).
Qed.

(** X3.  Keywords that have no length (a number, a boolean, [None]) make
    [len(keywords)] fail inside the [try]: the fetch returns [None] and the
    provider is not asked. *)
Theorem fetch_unsized_keywords (self : SEOAnalyzer) (keywords : pyval)
  (location_code : Z) (date_from : pystr) :
  py_len keywords = Raise TypeError ->
  outcome (fetch_search_volume_data self keywords location_code date_from)
  = Ok None
  /\ provider_requests
       (trace (fetch_search_volume_data self keywords location_code date_from))
     = 0%nat.
Proof.
  intros H. rewrite fetch_run, H.
  destruct (dataforseo_client self); now split.
Qed.

Lemma fetch_unsized_keywords_witness :
  outcome (fetch_search_volume_data demo_analyzer (VNum (PInt 7)) 2840
             (str "2021-08-01")) = Ok None
  /\ provider_requests
       (trace (fetch_search_volume_data demo_analyzer (VNum (PInt 7)) 2840
                 (str "2021-08-01"))) = 0%nat.
Proof.
  exact (fetch_unsized_keywords demo_analyzer (VNum (PInt 7)) 2840
           (str "2021-08-01") eq_refl).
Defined.

(** X4.  The fetch returns a body exactly when the provider was asked,
    answered, the answer could be decoded and its status code is 20000;
    the body returned is the provider's, unchanged. *)
Theorem fetch_some_iff (self : SEOAnalyzer) (keywords : pyval)
  (location_code : Z) (date_from : pystr) (body : ProviderResponse.t) :
  outcome (fetch_search_volume_data self keywords location_code date_from)
  = Ok (Some body)
  <-> exists client n response,
        dataforseo_client self = Some client
        /\ py_len keywords = Ok n
        /\ post client search_volume_path
             (search_volume_post_data keywords location_code date_from)
           = Ok response
        /\ json response = Ok body
        /\ ProviderResponse.status_code body = 20000.
Proof.
  rewrite fetch_run. split.
  - destruct (dataforseo_client self) as [client |]; [| discriminate].
    destruct (py_len keywords) as [n | e]; [| discriminate]. cbv zeta.
    destruct (post client _ _) as [response | e] eqn:P; [| discriminate].
    destruct (json response) as [b | e] eqn:J; [| discriminate].
    destruct (Z.eqb_spec (ProviderResponse.status_code b) 20000) as [S | S];
      [| discriminate].
    cbn. intros H; inversion H; subst.
    exists client, n, response. auto.
  - intros (client & n & response & -> & -> & P & J & S). cbv zeta.
    rewrite P, J, S. reflexivity.
Qed.

(** ** The enhanced analysis, case by case *)

Lemma create_enhanced_analysis_run (self : SEOAnalyzer) (ai keywords : pyval) :
  _create_enhanced_analysis self ai keywords
  = let fetched := fetch_search_volume_data self keywords 2840 (str "2021-08-01") in
    let unavailable :=
      (trace fetched ++ [Log WARNING MsgVolumeUnavailable],
       Ok (BasicResult ai keywords false)) in
    match outcome fetched with
    | Raise e => (trace fetched, Raise e)
    | Ok None => unavailable
    | Ok (Some data) =>
        match first_task_result data with
        | Raise e => (trace fetched, Raise e)
        | Ok None | Ok (Some []) => unavailable
        | Ok (Some (r :: rs)) =>
            match enrich_keywords (r :: rs) with
            | Raise e => (trace fetched, Raise e)
            | Ok enriched =>
                let es := sort_by_opportunity enriched in
                let printed := trace fetched ++ [Report ai es] in
                match outcome (_display_professional_report ai es) with
                | Raise e => (printed, Raise e)
                | Ok _ =>
                    match summary_metrics es with
                    | Raise e => (printed, Raise e)
                    | Ok sm =>
                        (printed, Ok (EnhancedResult ai es (firstn 5 es) sm true))
                    end
                end
            end
        end
    end.
Proof.
  unfold _create_enhanced_analysis, outcome, trace.
  destruct (fetch_search_volume_data self keywords 2840 (str "2021-08-01"))
    as [tr0 [[data |] | e]]; cbn [bind lift ret fst snd]; try reflexivity.
  destruct (first_task_result data) as [[[| r rs] |] | e];
    cbn [bind lift ret fst snd app log emit];
    rewrite ?app_nil_r; try reflexivity.
  destruct (enrich_keywords (r :: rs)) as [enriched | e];
    cbn [bind lift ret fst snd app]; rewrite ?app_nil_r; try reflexivity.
  pose proof (display_professional_report_run ai (sort_by_opportunity enriched))
    as D.
  destruct (_display_professional_report ai (sort_by_opportunity enriched))
    as [trr [u | e]]; cbn [snd] in D; injection D as ->;
    cbn [bind lift ret fst snd app]; [| reflexivity].
  destruct (summary_metrics _); cbn [bind lift ret fst snd app];
    now rewrite ?app_nil_r.
Qed.

(** X5.  When the provider answers with status 20000 but its first task
    has no result ([null] or an empty list), the enhanced analysis warns
    and returns the basic result with [enhanced_analysis] false; nothing is
    scored and no report is printed. *)
Theorem empty_provider_result_is_basic (self : SEOAnalyzer)
  (ai keywords : pyval) (tr0 : list event) (data : ProviderResponse.t) :
  fetch_search_volume_data self keywords 2840 (str "2021-08-01")
  = (tr0, Ok (Some data)) ->
  first_task_result data = Ok None \/ first_task_result data = Ok (Some []) ->
  _create_enhanced_analysis self ai keywords
  = (tr0 ++ [Log WARNING MsgVolumeUnavailable],
     Ok (BasicResult ai keywords false))
  /\ reports (trace (_create_enhanced_analysis self ai keywords))
     = reports tr0.
Proof.
  intros F R. rewrite create_enhanced_analysis_run, F. cbn [outcome trace fst snd].
  cbv zeta. destruct R as [-> | ->]; (split; [reflexivity |]);
    unfold reports, trace; cbn [fst]; now rewrite filter_app, length_app, Nat.add_0_r.
Qed.

(** An analyzer whose provider knows none of the keywords. *)
Lemma empty_provider_result_is_basic_witness :
  exists tr,
    _create_enhanced_analysis empty_result_analyzer demo_analysis demo_keywords
    = (tr, Ok (BasicResult demo_analysis demo_keywords false))
    /\ reports tr = 0%nat.
Proof.
  eexists.
  destruct (empty_provider_result_is_basic empty_result_analyzer demo_analysis
              demo_keywords _ _ eq_refl (or_intror eq_refl)) as [H R].
  split; [exact H | reflexivity].
Defined.

(** X6.  A success response without any task makes
    [search_volume_data["tasks"][0]] fail: the enhanced analysis raises
    [IndexError], and the pipeline logs it and raises it to the caller. *)
Theorem no_task_raises_index_error (json_loads : pystr -> result pyval)
  (self : SEOAnalyzer) (website_content : pystr) (client : RestClient)
  (tr_ai tr_fetch : list event) (ai keywords : pyval)
  (data : ProviderResponse.t) :
  dataforseo_client self = Some client ->
  _generate_ai_insights json_loads self website_content = (tr_ai, Ok ai) ->
  analysis_keywords ai = Ok keywords ->
  truthy keywords = true ->
  fetch_search_volume_data self keywords 2840 (str "2021-08-01")
  = (tr_fetch, Ok (Some data)) ->
  ProviderResponse.tasks data = [] ->
  _create_enhanced_analysis self ai keywords = (tr_fetch, Raise IndexError)
  /\ generate_comprehensive_analysis json_loads self website_content
     = (tr_ai ++ tr_fetch ++ [Log ERROR (MsgAnalysisFailed IndexError)],
        Raise IndexError).
Proof.
  intros Hc Hai Hk Ht F T.
  assert (C : _create_enhanced_analysis self ai keywords
              = (tr_fetch, Raise IndexError)).
  { rewrite create_enhanced_analysis_run, F. cbn [outcome trace fst snd].
    unfold first_task_result. now rewrite T. }
  split; [exact C |].
  unfold generate_comprehensive_analysis.
  rewrite Hai. cbn [bind lift]. rewrite Hk. cbn [bind lift].
  rewrite Ht, Hc. cbn [negb]. rewrite C. cbn.
  now rewrite <- app_assoc.
Qed.

Lemma no_task_raises_index_error_witness :
  exists tr,
    generate_comprehensive_analysis json_loads_demo no_task_analyzer
      (str "We sell shoes.")
    = (tr, Raise IndexError).
Proof.
  eexists.
  exact (proj2 (no_task_raises_index_error json_loads_demo no_task_analyzer
                  (str "We sell shoes.") _ _ _ demo_analysis demo_keywords _
                  eq_refl eq_refl eq_refl eq_refl eq_refl eq_refl)).
Defined.

Lemma enrich_keywords_each (results : list KeywordMetric.t)
  (enriched : list EnrichedKeyword.t) :
  enrich_keywords results = Ok enriched ->
  Forall2 (fun kd e => _format_keyword_analytics kd = Ok e) results enriched.
Proof.
  revert enriched. induction results as [| kd rs IH]; intros enriched; simpl.
  - intros H; inversion H. constructor.
  - unfold rbind at 1.
    destruct (_format_keyword_analytics kd) as [e |] eqn:Ee; [| discriminate].
    unfold rbind. destruct (enrich_keywords rs) as [es |]; [| discriminate].
    intros H; inversion H; subst. constructor; auto.
Qed.


Lemma forall2_in_left {A B} (R : A -> B -> Prop) (l : list A) (l' : list B)
  (a : A) :
  Forall2 R l l' -> In a l -> exists b, In b l' /\ R a b.
Proof.
  induction 1 as [| x y l l' Hxy H IH]; simpl; [contradiction |].
  intros [<- | Ha].
  - exists y. auto.
  - destruct (IH Ha) as (b & Hb & Hab). exists b. auto.
Qed.








Lemma no_nan_scores_perm (l l' : list EnrichedKeyword.t) :
  Permutation l l' -> no_nan_scores l' = true -> no_nan_scores l = true.
Proof.
  unfold no_nan_scores. intros P H. rewrite forallb_forall in H |- *.
  intros e He. apply H. exact (Permutation_in e P He).
Qed.

Lemma strongly_sorted_app_inv {A} (R : A -> A -> Prop) (l1 l2 : list A) :
  StronglySorted R (l1 ++ l2) ->
  forall a b, In a l1 -> In b l2 -> R a b.
Proof.
  induction l1 as [| x l1 IH]; simpl; intros H a b Ha Hb; [contradiction |].
  apply StronglySorted_inv in H as [H Hx]. destruct Ha as [<- | Ha].
  - rewrite Forall_forall in Hx. apply Hx. apply in_or_app. now right.
  - now apply IH.
Qed.

(** X8.  In an enhanced result whose scores are not NaN, every record
    among [top_recommendations] scores at least as high as every record
    left out of them. *)
Theorem top_recommendations_dominate (self : SEOAnalyzer) (ai keywords : pyval)
  (tr : list event) (w : pyval) (es top : list EnrichedKeyword.t)
  (sm : SummaryMetrics) (b : bool) :
  _create_enhanced_analysis self ai keywords
  = (tr, Ok (EnhancedResult w es top sm b)) ->
  no_nan_scores es = true ->
  forall e1 e2,
    In e1 top -> In e2 (skipn 5 es) -> py_ge (score e1) (score e2) = true.
Proof.
  intros H N e1 e2 H1 H2.
  apply create_enhanced_analysis_inv in H
    as (tr0 & data & results & enriched & _ & _ & _ & E & -> & -> & _).
  pose proof (sort_reverse_perm score py_lt enriched) as P.
  change (sort_reverse score py_lt enriched)
    with (sort_by_opportunity enriched) in P.
  pose proof (scores_ordered results enriched E (no_nan_scores_perm _ _ P N)) as O.
  pose proof (sort_reverse_descending score py_lt (fun v => float_score v = true)
                py_lt_asym py_lt_negtrans enriched O) as D.
  change (sort_reverse score py_lt enriched)
    with (sort_by_opportunity enriched) in D.
  assert (O' : all_ordered score (fun v => float_score v = true)
                 (sort_by_opportunity enriched))
    by exact (Permutation_Forall P O).
  unfold all_ordered in O'. rewrite Forall_forall in O'.
  unfold descending in D.
  rewrite <- (firstn_skipn 5 (sort_by_opportunity enriched)) in D.
  pose proof (strongly_sorted_app_inv _ _ _ D e1 e2 H1 H2) as L.
  apply py_lt_false_ge; auto.
  - apply O'. rewrite <- (firstn_skipn 5 (sort_by_opportunity enriched)).
    apply in_or_app. now left.
  - apply O'. rewrite <- (firstn_skipn 5 (sort_by_opportunity enriched)).
    apply in_or_app. now right.
Qed.

Lemma top_recommendations_dominate_witness :
  exists tr es top sm,
    _create_enhanced_analysis seven_record_analyzer demo_analysis demo_keywords
    = (tr, Ok (EnhancedResult demo_analysis es top sm true))
    /\ length top = 5%nat /\ length (skipn 5 es) = 2%nat
    /\ forall e1 e2,
         In e1 top -> In e2 (skipn 5 es) -> py_ge (score e1) (score e2) = true.
Proof.
  eexists. eexists. eexists. eexists.
  match goal with
  | |- ?H /\ _ => assert (Hrun : H) by (vm_compute; reflexivity)
  end.
  split; [exact Hrun |]. split; [reflexivity |]. split; [reflexivity |].
  refine (top_recommendations_dominate _ _ _ _ _ _ _ _ _ Hrun _).
  vm_compute. reflexivity.
Defined.

(** ** The orchestrator, case by case *)

Lemma generate_comprehensive_analysis_run (json_loads : pystr -> result pyval)
  (self : SEOAnalyzer) (website_content : pystr) :
  generate_comprehensive_analysis json_loads self website_content
  = let insight := _generate_ai_insights json_loads self website_content in
    let failed e rest :=
      (trace insight ++ rest ++ [Log ERROR (MsgAnalysisFailed e)], Raise e) in
    match outcome insight with
    | Raise e => failed e []
    | Ok ai =>
        match analysis_keywords ai with
        | Raise e => failed e []
        | Ok keywords =>
            if truthy keywords then
              match dataforseo_client self with
              | None =>
                  (trace insight ++ [Log INFO MsgBasicAnalysis],
                   Ok (BasicResult ai keywords false))
              | Some _ =>
                  let enhanced := _create_enhanced_analysis self ai keywords in
                  match outcome enhanced with
                  | Ok r => (trace insight ++ trace enhanced, Ok r)
                  | Raise e => failed e (trace enhanced)
                  end
              end
            else
              (trace insight ++ [Log WARNING MsgNoKeywords],
               Ok (MinimalResult ai [] []))
        end
    end.
Proof.
  unfold generate_comprehensive_analysis, outcome, trace.
  destruct (_generate_ai_insights json_loads self website_content)
    as [tr0 [ai | e]]; [| reflexivity].
  cbn [bind lift fst snd].
  destruct (analysis_keywords ai) as [keywords | e];
    [| cbn; now rewrite app_nil_r].
  cbn [bind lift fst snd app].
  destruct (truthy keywords); cbn [negb]; [| reflexivity].
  destruct (dataforseo_client self); [| reflexivity].
  destruct (_create_enhanced_analysis self ai keywords) as [tr1 [res | err]];
    cbn; [reflexivity | now rewrite <- app_assoc].
Qed.

(** X9.  Without a search-data client the pipeline returns the basic
    result ([enhanced_analysis] false, with the analysis and its keywords)
    and never enters [fetch_search_volume_data]. *)
Theorem not_configured_is_basic (json_loads : pystr -> result pyval)
  (self : SEOAnalyzer) (website_content : pystr)
  (tr0 : list event) (ai keywords : pyval) :
  dataforseo_client self = None ->
  _generate_ai_insights json_loads self website_content = (tr0, Ok ai) ->
  analysis_keywords ai = Ok keywords ->
  truthy keywords = true ->
  generate_comprehensive_analysis json_loads self website_content
  = (tr0 ++ [Log INFO MsgBasicAnalysis], Ok (BasicResult ai keywords false))
  /\ fetch_calls (tr0 ++ [Log INFO MsgBasicAnalysis]) = 0%nat
  /\ provider_requests (tr0 ++ [Log INFO MsgBasicAnalysis]) = 0%nat.
Proof.
  intros Hc Hai Hk Ht.
  destruct (generate_ai_insights_no_fetch _ _ _ _ _ Hai) as [F P].
  split; [| split].
  - rewrite generate_comprehensive_analysis_run, Hai.
    cbn [outcome trace fst snd]. now rewrite Hk, Ht, Hc.
  - now rewrite fetch_calls_app, F.
  - now rewrite provider_requests_app, P.
Qed.

Lemma not_configured_is_basic_witness :
  exists tr,
    generate_comprehensive_analysis json_loads_demo unconfigured_analyzer
      (str "We sell shoes.")
    = (tr, Ok (BasicResult demo_analysis demo_keywords false))
    /\ fetch_calls tr = 0%nat.
Proof.
  eexists.
  destruct (not_configured_is_basic json_loads_demo unconfigured_analyzer
              (str "We sell shoes.") _ demo_analysis demo_keywords
              eq_refl eq_refl eq_refl eq_refl) as (H & F & _).
  split; [exact H | exact F].
Defined.

(** X10.  When the call to the language model fails, the pipeline raises
    the same exception to the caller: it is logged by the insight stage and
    by the orchestrator, nothing is parsed, and the provider is not
    asked. *)
Theorem insight_failure_propagates (json_loads : pystr -> result pyval)
  (self : SEOAnalyzer) (website_content : pystr) (e : exn) :
  chat_completions_create (openai_client self) website_content = Raise e ->
  generate_comprehensive_analysis json_loads self website_content
  = ([ OpenAIRequest website_content;
       Log ERROR (MsgAIFailed e);
       Log ERROR (MsgAnalysisFailed e) ],
     Raise e).
Proof.
  intros H.
  rewrite generate_comprehensive_analysis_run, generate_ai_insights_run, H.
  reflexivity.
Qed.

Lemma insight_failure_propagates_witness :
  generate_comprehensive_analysis json_loads_demo offline_analyzer
    (str "We sell shoes.")
  = ([ OpenAIRequest (str "We sell shoes.");
       Log ERROR (MsgAIFailed (OtherError (str "APIConnectionError")));
       Log ERROR (MsgAnalysisFailed (OtherError (str "APIConnectionError"))) ],
     Raise (OtherError (str "APIConnectionError"))).
Proof.
  exact (insight_failure_propagates json_loads_demo offline_analyzer
           (str "We sell shoes.") _ eq_refl).
Defined.

(** X11.  A response of the language model that [json.loads] rejects with
    [JSONDecodeError] after cleaning does not stop the run: the pipeline
    returns the minimal result around the fallback analysis, with or
    without a search-data client, and the provider is not asked. *)
Theorem malformed_response_is_minimal (json_loads : pystr -> result pyval)
  (self : SEOAnalyzer) (website_content ai_response : pystr) :
  chat_completions_create (openai_client self) website_content = Ok ai_response ->
  json_loads (clean_response ai_response) = Raise JSONDecodeError ->
  generate_comprehensive_analysis json_loads self website_content
  = ([ OpenAIRequest website_content;
       Log INFO MsgAICompleted;
       Log ERROR MsgParseFailed;
       Log WARNING MsgNoKeywords ],
     Ok (MinimalResult fallback_analysis [] [])).
Proof.
  intros H J.
  rewrite generate_comprehensive_analysis_run, generate_ai_insights_run, H, J.
  reflexivity.
Qed.

Lemma malformed_response_is_minimal_witness :
  generate_comprehensive_analysis json_loads_demo chatty_analyzer
    (str "We sell shoes.")
  = ([ OpenAIRequest (str "We sell shoes.");
       Log INFO MsgAICompleted;
       Log ERROR MsgParseFailed;
       Log WARNING MsgNoKeywords ],
     Ok (MinimalResult fallback_analysis [] [])).
Proof.
  exact (malformed_response_is_minimal json_loads_demo chatty_analyzer
           (str "We sell shoes.") _ eq_refl eq_refl).
Defined.

(** X12.  A response that decodes to JSON other than an object (a list, a
    string, a number, [null]) is not replaced by the fallback: the
    [.get] of the orchestrator fails and the pipeline raises
    [AttributeError]. *)
Theorem non_object_analysis_raises (json_loads : pystr -> result pyval)
  (self : SEOAnalyzer) (website_content ai_response : pystr) (v : pyval) :
  chat_completions_create (openai_client self) website_content = Ok ai_response ->
  json_loads (clean_response ai_response) = Ok v ->
  is_dict v = false ->
  generate_comprehensive_analysis json_loads self website_content
  = ([ OpenAIRequest website_content;
       Log INFO MsgAICompleted;
       Log ERROR (MsgAnalysisFailed AttributeError) ],
     Raise AttributeError).
Proof.
  intros H J D.
  rewrite generate_comprehensive_analysis_run, generate_ai_insights_run, H, J.
  cbn [outcome trace fst snd].
  destruct v; try discriminate; reflexivity.
Qed.

Lemma non_object_analysis_raises_witness :
  generate_comprehensive_analysis json_loads_list demo_analyzer
    (str "We sell shoes.")
  = ([ OpenAIRequest (str "We sell shoes.");
       Log INFO MsgAICompleted;
       Log ERROR (MsgAnalysisFailed AttributeError) ],
     Raise AttributeError).
Proof.
  exact (non_object_analysis_raises json_loads_list demo_analyzer
           (str "We sell shoes.") _ _ eq_refl eq_refl eq_refl).
Defined.

(** X13.  An exception of [json.loads] other than [JSONDecodeError] (a
    [RecursionError] for a text nested too deeply, a [ValueError] for an
    integer of more than 4300 digits) is not replaced by the fallback
    record: the insight stage and the orchestrator log it and the pipeline
    raises it to the caller; the provider is not asked. *)
Theorem decoder_failure_propagates (json_loads : pystr -> result pyval)
  (self : SEOAnalyzer) (website_content ai_response : pystr) (e : exn) :
  chat_completions_create (openai_client self) website_content = Ok ai_response ->
  json_loads (clean_response ai_response) = Raise e ->
  is_JSONDecodeError e = false ->
  generate_comprehensive_analysis json_loads self website_content
  = ([ OpenAIRequest website_content;
       Log INFO MsgAICompleted;
       Log ERROR (MsgAIFailed e);
       Log ERROR (MsgAnalysisFailed e) ],
     Raise e).
Proof.
  intros H J D.
  rewrite generate_comprehensive_analysis_run, generate_ai_insights_run, H, J, D.
  reflexivity.
Qed.

Lemma decoder_failure_propagates_witness :
  generate_comprehensive_analysis json_loads_nested nesting_analyzer
    (str "We sell shoes.")
  = ([ OpenAIRequest (str "We sell shoes.");
       Log INFO MsgAICompleted;
       Log ERROR (MsgAIFailed RecursionError);
       Log ERROR (MsgAnalysisFailed RecursionError) ],
     Raise RecursionError).
Proof.
  refine (decoder_failure_propagates json_loads_nested nesting_analyzer
            (str "We sell shoes.") nested_brackets RecursionError _ _ _).
  - reflexivity.
  - vm_compute. reflexivity.
  - reflexivity.
Defined.

Lemma format_keyword_cpc (kd : KeywordMetric.t) (e : EnrichedKeyword.t) :
  _format_keyword_analytics kd = Ok e ->
  EnrichedKeyword.cpc e = get_or_0 (KeywordMetric.cpc kd).
Proof.
  unfold _format_keyword_analytics, rbind.
  destruct (_calculate_opportunity_score kd); [| discriminate].
  intros H; inversion H. reflexivity.
Qed.

Lemma report_keywords_formats_cpc (es : list EnrichedKeyword.t)
  (e : EnrichedKeyword.t) :
  report_keywords es = Ok tt -> In e es ->
  format_fixed (EnrichedKeyword.cpc e) = Ok tt.
Proof.
  induction es as [| k es IH]; simpl; [contradiction |].
  unfold rbind at 1.
  destruct (report_keyword k) as [[] |] eqn:K; [| discriminate].
  intros R [<- | Hin]; [| now apply IH].
  unfold report_keyword, rbind in K.
  destruct (EnrichedKeyword.keyword k); [| discriminate].
  destruct (format_decimal (EnrichedKeyword.search_volume k)); [| discriminate].
  now destruct (format_fixed (EnrichedKeyword.cpc k)) as [[] |].
Qed.

Lemma display_report_ok (ai : pyval) (es : list EnrichedKeyword.t) (u : unit) :
  outcome (_display_professional_report ai es) = Ok u ->
  report_keywords es = Ok tt.
Proof.
  unfold _display_professional_report, outcome. cbn [emit bind lift].
  repeat match goal with
         | |- context [py_get ?a ?k ?d] => destruct (py_get a k d)
         | |- context [py_sum ?l] => destruct (py_sum l)
         | |- context [format_decimal ?x] => destruct (format_decimal x)
         end; cbn [bind lift snd]; try discriminate.
  now destruct (report_keywords es) as [[] |].
Qed.

(** X14.  A provider record whose cost per click is an integer too large
    for a [float] makes the enhanced analysis fail: the report cannot
    format it with [:.2f], so no result is returned. *)
Theorem unprintable_cpc_raises (self : SEOAnalyzer) (ai keywords : pyval)
  (tr0 : list event) (data : ProviderResponse.t)
  (results : list KeywordMetric.t) (kd : KeywordMetric.t) (z : Z) :
  fetch_search_volume_data self keywords 2840 (str "2021-08-01")
  = (tr0, Ok (Some data)) ->
  first_task_result data = Ok (Some results) ->
  In kd results ->
  KeywordMetric.cpc kd = Some (PInt z) ->
  int_to_float z = Raise OverflowError ->
  exists e, outcome (_create_enhanced_analysis self ai keywords) = Raise e.
Proof.
  intros F R Hin Hcpc Hz.
  rewrite create_enhanced_analysis_run, F. cbn [outcome trace fst snd].
  rewrite R. destruct results as [| r rs]; [contradiction |].
  destruct (enrich_keywords (r :: rs)) as [enriched | e] eqn:E;
    [| now exists e].
  cbv zeta. unfold outcome.
  destruct (snd (_display_professional_report ai (sort_by_opportunity enriched)))
    as [u | e] eqn:D; [| now exists e].
  apply (display_report_ok ai _ u) in D.
  pose proof (enrich_keywords_each _ _ E) as Each.
  destruct (forall2_in_left _ _ _ kd Each Hin) as (e & He & Hf).
  apply (Permutation_in e (sort_reverse_perm score py_lt enriched)) in He.
  pose proof (report_keywords_formats_cpc _ e D He) as P.
  rewrite (format_keyword_cpc kd e Hf), Hcpc in P.
  assert (Hnz : z <> 0) by (intros ->; discriminate Hz).
  unfold get_or_0, num_truthy in P.
  destruct (Z.eqb_spec z 0) as [-> | _]; [contradiction |].
  cbn [negb format_fixed rbind] in P. unfold rbind in P.
  rewrite Hz in P. discriminate P.
Qed.

Lemma unprintable_cpc_raises_witness :
  (exists e,
      outcome (_create_enhanced_analysis overpriced_analyzer demo_analysis
                 demo_keywords) = Raise e)
  /\ outcome (_create_enhanced_analysis overpriced_analyzer demo_analysis
                demo_keywords) = Raise OverflowError.
Proof.
  split.
  - refine (unprintable_cpc_raises overpriced_analyzer demo_analysis
              demo_keywords _ _ _ overpriced_shoes (2 ^ 1024) _ _ _ _ _).
    + reflexivity.
    + reflexivity.
    + right. left. reflexivity.
    + reflexivity.
    + vm_compute. reflexivity.
  - vm_compute. reflexivity.
Defined.
